(** * MCP agent framework: request routing and protocol validation

    A shallow embedding of the message envelope and the validator of
    [mcp_framework/core/protocol.py] and of the router of
    [mcp_framework/core/router.py], followed by the properties of the
    routing engine and of the protocol validator.

    Conventions of the embedding:
    - a Python [int] is a [Z]; a Python [float] is a binary64 value of
      [PrimFloat.float], compared with [PrimFloat.leb] / [PrimFloat.ltb];
    - a Python [str] is a [string], one element per character;
    - [Optional[T]] is [option T];
    - each [Enum] class is an inductive type in a module of its own, with
      its [.value] as a function;
    - a [dict] used as a lookup table is a [gmap]; a [dict] built as a
      transport shape is an association list in insertion order;
    - calls to [logger] are collected as a list of records next to the
      returned value. *)

From Stdlib Require Import ZArith String List Bool PrimFloat.
From stdpp Require Import gmap strings pretty.
Import ListNotations.

Set Warnings "-inexact-float,-register-all".

Local Open Scope string_scope.
Local Open Scope list_scope.
Local Open Scope Z_scope.

(** ** Python values *)

(** The values a [Dict[str, Any]] of this code base holds. *)
Inductive pyval : Type :=
| PNone
| PBool (b : bool)
| PInt (n : Z)
| PFloat (x : float)
| PStr (s : string)
| PList (l : list pyval)
| PDict (d : list (string * pyval)).

(** [x if c else None] for an optional string-like attribute. *)
Definition PStr_or_None (o : option string) : pyval :=
  match o with
  | Some s => PStr s
  | None => PNone
  end.

Definition PInt_or_None (o : option Z) : pyval :=
  match o with
  | Some n => PInt n
  | None => PNone
  end.

(** Truthiness of an [Optional[int]]: [None] and [0] are false. *)
Definition truthy_int (o : option Z) : bool :=
  match o with
  | Some n => negb (n =? 0)
  | None => false
  end.

(** [str(x)], as an f-string formats an [Optional[int]]. *)
Definition str_opt_int (o : option Z) : string :=
  match o with
  | Some n => pretty n
  | None => "None"
  end.

(** Truthiness of a [str]: only the empty string is false. *)
Definition truthy_str (s : string) : bool :=
  match s with
  | EmptyString => false
  | String _ _ => true
  end.

(** Truthiness of an [Optional[str]]. *)
Definition truthy_opt_str (o : option string) : bool :=
  match o with
  | Some s => truthy_str s
  | None => false
  end.

(** The slice [l[start:]] of a list: a negative [start] counts from the
    end, and a [start] beyond either end is clamped to it. *)
Definition slice_from {A : Type} (start : Z) (l : list A) : list A :=
  let len := Z.of_nat (length l) in
  let i := if start <? 0 then Z.max (len + start) 0 else Z.min start len in
  drop (Z.to_nat i) l.

(** [str(x)], as an f-string formats an [Optional[str]]. *)
Definition str_opt_str (o : option string) : string :=
  match o with
  | Some s => s
  | None => "None"
  end.

(** ** Logging *)

Inductive level : Set := DEBUG | INFO | WARNING | ERROR.

Definition log_record : Type := level * string.

(** ** [datetime] *)

(** A naive [datetime], as [datetime.now()] returns it. *)
Record datetime : Set := mk_datetime {
  year : N;
  month : N;
  day : N;
  hour : N;
  minute : N;
  second : N;
  microsecond : N
}.

(** [str.zfill]: pad with zeros on the left up to width [w]. *)
Definition zfill (w : nat) (s : string) : string :=
  String.concat "" (replicate (w - String.length s) "0") +:+ s.

(** [datetime.isoformat()] of a naive value:
    [YYYY-MM-DDTHH:MM:SS], followed by [.ffffff] when the microsecond
    is not zero. *)
Definition isoformat (d : datetime) : string :=
  zfill 4 (pretty (year d)) +:+ "-" +:+
  zfill 2 (pretty (month d)) +:+ "-" +:+
  zfill 2 (pretty (day d)) +:+ "T" +:+
  zfill 2 (pretty (hour d)) +:+ ":" +:+
  zfill 2 (pretty (minute d)) +:+ ":" +:+
  zfill 2 (pretty (second d)) +:+
  (if (microsecond d =? 0)%N then "" else "." +:+ zfill 6 (pretty (microsecond d))).

(** ** Enumerations of [protocol.py] *)

Module MCPPriority.

Inductive t : Set := LOW | NORMAL | HIGH | CRITICAL.

Definition value (p : t) : Z :=
  match p with
  | LOW => 0
  | NORMAL => 1
  | HIGH => 2
  | CRITICAL => 3
  end.

End MCPPriority.

Module ModelType.

Inductive t : Set :=
| GPT4
| GPT35_TURBO
| CLAUDE_3_OPUS
| CLAUDE_3_SONNET
| GEMINI_PRO
| EMBEDDING.

Definition value (m : t) : string :=
  match m with
  | GPT4 => "gpt-4"
  | GPT35_TURBO => "gpt-3.5-turbo"
  | CLAUDE_3_OPUS => "claude-3-opus"
  | CLAUDE_3_SONNET => "claude-3-sonnet"
  | GEMINI_PRO => "gemini-pro"
  | EMBEDDING => "text-embedding-3-small"
  end.

(** [for model in ModelType]: the members in definition order. *)
Definition members : list t :=
  [GPT4; GPT35_TURBO; CLAUDE_3_OPUS; CLAUDE_3_SONNET; GEMINI_PRO; EMBEDDING].

#[global] Instance eq_dec : EqDecision t.
Proof. solve_decision. Defined.

Definition index (m : t) : nat :=
  match m with
  | GPT4 => 0
  | GPT35_TURBO => 1
  | CLAUDE_3_OPUS => 2
  | CLAUDE_3_SONNET => 3
  | GEMINI_PRO => 4
  | EMBEDDING => 5
  end%nat.

Definition of_index (n : nat) : t :=
  match n with
  | 0 => GPT4
  | 1 => GPT35_TURBO
  | 2 => CLAUDE_3_OPUS
  | 3 => CLAUDE_3_SONNET
  | 4 => GEMINI_PRO
  | _ => EMBEDDING
  end%nat.

#[global] Instance countable : Countable t.
Proof. by apply (inj_countable' index of_index); intros []. Defined.

End ModelType.

Module TaskType.

Inductive t : Set :=
| CREATIVE
| REASONING
| CLASSIFICATION
| EXTRACTION
| SUMMARIZATION
| EMBEDDING
| GENERAL.

Definition value (k : t) : string :=
  match k with
  | CREATIVE => "creative"
  | REASONING => "reasoning"
  | CLASSIFICATION => "classification"
  | EXTRACTION => "extraction"
  | SUMMARIZATION => "summarization"
  | EMBEDDING => "embedding"
  | GENERAL => "general"
  end.

#[global] Instance eq_dec : EqDecision t.
Proof. solve_decision. Defined.

End TaskType.

(** [m.value if m else None]: an [Enum] member is always true. *)
Definition model_value_or_None (o : option ModelType.t) : pyval :=
  match o with
  | Some m => PStr (ModelType.value m)
  | None => PNone
  end.

(** ** [MCPContext] *)

Module MCPContext.

Record t : Type := mk {
  conversation_id : string;
  session_id : option string;
  history : list (list (string * pyval));
  shared_memory : gmap string pyval;
  metadata : list (string * pyval)
}.

(** [MCPContext()] with the identifier [uuid4()] produced. *)
Definition new (uuid : string) : t :=
  {| conversation_id := uuid;
     session_id := None;
     history := [];
     shared_memory := ∅;
     metadata := [] |}.

Definition add_message (self : t) (now : datetime)
    (role content : string) (model : option string) : t :=
  {| conversation_id := conversation_id self;
     session_id := session_id self;
     history := history self ++
       [[("role", PStr role);
         ("content", PStr content);
         ("model", PStr_or_None model);
         ("timestamp", PStr (isoformat now))]];
     shared_memory := shared_memory self;
     metadata := metadata self |}.

(** [get_history(last_n)]: [last_n] counts as given only when it is
    true, that is neither [None] nor [0]. *)
Definition get_history (self : t) (last_n : option Z) : list (list (string * pyval)) :=
  if truthy_int last_n
  then match last_n with
       | Some n => slice_from (- n) (history self)
       | None => history self
       end
  else history self.

Definition set_memory (self : t) (key : string) (value : pyval) : t :=
  {| conversation_id := conversation_id self;
     session_id := session_id self;
     history := history self;
     shared_memory := <[key := value]> (shared_memory self);
     metadata := metadata self |}.

Definition get_memory (self : t) (key : string) (default : pyval) : pyval :=
  match shared_memory self !! key with
  | Some v => v
  | None => default
  end.

Definition clear_memory (self : t) : t :=
  {| conversation_id := conversation_id self;
     session_id := session_id self;
     history := history self;
     shared_memory := ∅;
     metadata := metadata self |}.

End MCPContext.

(** ** [MCPRequest] *)

Module MCPRequest.

Record t : Type := mk {
  request_id : string;
  content : string;
  task_type : TaskType.t;
  model : option ModelType.t;
  priority : MCPPriority.t;
  require_reasoning : bool;
  require_creativity : bool;
  max_tokens : option Z;
  temperature : float;
  context : option MCPContext.t;
  use_context : bool;
  cache_enabled : bool;
  cache_ttl : Z;
  agent_name : option string;
  timestamp : datetime;
  metadata : list (string * pyval)
}.

(** [__post_init__]: a request built with [use_context] and no context
    receives a fresh one, whose identifier is [uuid]. *)
Definition post_init (uuid : string) (self : t) : t * list log_record :=
  let log1 :=
    if negb (truthy_str (content self)) &&
       negb (bool_decide (task_type self = TaskType.EMBEDDING))
    then [(WARNING, "Empty request content: " +:+ request_id self)]
    else [] in
  let context' :=
    match context self with
    | None => if use_context self then Some (MCPContext.new uuid) else None
    | Some c => Some c
    end in
  ({| request_id := request_id self;
      content := content self;
      task_type := task_type self;
      model := model self;
      priority := priority self;
      require_reasoning := require_reasoning self;
      require_creativity := require_creativity self;
      max_tokens := max_tokens self;
      temperature := temperature self;
      context := context';
      use_context := use_context self;
      cache_enabled := cache_enabled self;
      cache_ttl := cache_ttl self;
      agent_name := agent_name self;
      timestamp := timestamp self;
      metadata := metadata self |},
   log1 ++
   [(INFO, "MCP request created: " +:+ request_id self +:+
           ", task=" +:+ TaskType.value (task_type self))]).

Definition to_dict (self : t) : list (string * pyval) :=
  [("request_id", PStr (request_id self));
   ("content", PStr (content self));
   ("task_type", PStr (TaskType.value (task_type self)));
   ("model", model_value_or_None (model self));
   ("priority", PInt (MCPPriority.value (priority self)));
   ("require_reasoning", PBool (require_reasoning self));
   ("require_creativity", PBool (require_creativity self));
   ("max_tokens", PInt_or_None (max_tokens self));
   ("temperature", PFloat (temperature self));
   ("cache_enabled", PBool (cache_enabled self));
   ("cache_ttl", PInt (cache_ttl self));
   ("agent_name", PStr_or_None (agent_name self));
   ("timestamp", PStr (isoformat (timestamp self)));
   ("metadata", PDict (metadata self))].

End MCPRequest.

(** ** [MCPResponse] *)

Module MCPResponse.

Record t : Type := mk {
  request_id : string;
  content : string;
  model_used : ModelType.t;
  success : bool;
  latency_ms : float;
  tokens_used : Z;
  cached : bool;
  context : option MCPContext.t;
  error : option string;
  fallback_used : bool;
  fallback_model : option ModelType.t;
  timestamp : datetime;
  metadata : list (string * pyval)
}.

Definition to_dict (self : t) : list (string * pyval) :=
  [("request_id", PStr (request_id self));
   ("content", PStr (content self));
   ("model_used", PStr (ModelType.value (model_used self)));
   ("success", PBool (success self));
   ("latency_ms", PFloat (latency_ms self));
   ("tokens_used", PInt (tokens_used self));
   ("cached", PBool (cached self));
   ("error", PStr_or_None (error self));
   ("fallback_used", PBool (fallback_used self));
   ("fallback_model", model_value_or_None (fallback_model self));
   ("timestamp", PStr (isoformat (timestamp self)));
   ("metadata", PDict (metadata self))].

End MCPResponse.

(** ** [MCPMessage] *)

Module MCPMessageType.

Inductive t : Set := REQUEST | RESPONSE | ERROR | CONTEXT_SHARE | HEALTH_CHECK.

Definition value (k : t) : string :=
  match k with
  | REQUEST => "request"
  | RESPONSE => "response"
  | ERROR => "error"
  | CONTEXT_SHARE => "context_share"
  | HEALTH_CHECK => "health_check"
  end.

End MCPMessageType.

Module MCPMessage.

Record t : Type := mk {
  message_id : string;
  message_type : MCPMessageType.t;
  payload : list (string * pyval);
  timestamp : datetime;
  source : option string;
  destination : option string
}.

Definition to_dict (self : t) : list (string * pyval) :=
  [("message_id", PStr (message_id self));
   ("message_type", PStr (MCPMessageType.value (message_type self)));
   ("payload", PDict (payload self));
   ("timestamp", PStr (isoformat (timestamp self)));
   ("source", PStr_or_None (source self));
   ("destination", PStr_or_None (destination self))].

End MCPMessage.

(** ** [MCPProtocolValidator] *)

Module MCPProtocolValidator.

Definition validate_request (request : MCPRequest.t) : bool * option string :=
  if negb (truthy_str (MCPRequest.content request)) &&
     negb (bool_decide (MCPRequest.task_type request = TaskType.EMBEDDING))
  then (false, Some "Request content cannot be empty")
  else if truthy_int (MCPRequest.max_tokens request) &&
          match MCPRequest.max_tokens request with
          | Some n => n <=? 0
          | None => false
          end
  then (false, Some "max_tokens must be positive")
  else if negb (PrimFloat.leb 0 (MCPRequest.temperature request) &&
                PrimFloat.leb (MCPRequest.temperature request) 2.0)
  then (false, Some "temperature must be between 0 and 2.0")
  else if MCPRequest.cache_ttl request <? 0
  then (false, Some "cache_ttl cannot be negative")
  else (true, None).

Definition validate_response (response : MCPResponse.t) : bool * option string :=
  if negb (MCPResponse.success response) &&
     negb (truthy_opt_str (MCPResponse.error response))
  then (false, Some "Failed response must include error message")
  else if PrimFloat.ltb (MCPResponse.latency_ms response) 0
  then (false, Some "latency_ms cannot be negative")
  else if MCPResponse.tokens_used response <? 0
  then (false, Some "tokens_used cannot be negative")
  else (true, None).

End MCPProtocolValidator.

(** ** Convenience functions *)

(** [create_request(content, task_type, model, **kwargs)]. [fields] is
    what the call hands to the dataclass, every field left out at its
    default; [uuid] names the context [__post_init__] may create. The
    [ValueError] raised for an invalid request is the right injection,
    with its message. *)
Definition create_request (uuid : string) (fields : MCPRequest.t)
    : (MCPRequest.t + string) * list log_record :=
  let '(request, log1) := MCPRequest.post_init uuid fields in
  let '(is_valid, error) := MCPProtocolValidator.validate_request request in
  if negb is_valid
  then (inr ("Invalid MCP request: " +:+ str_opt_str error),
        log1 ++ [(ERROR, "Invalid MCP request: " +:+ str_opt_str error)])
  else (inl request, log1).

(** [create_response(request_id, content, model_used, **kwargs)], with
    [fields] as for [create_request]. The records logged on the way are
    left out: [MCPResponse.__post_init__] formats a float in its
    message. *)
Definition create_response (fields : MCPResponse.t) : MCPResponse.t + string :=
  let '(is_valid, error) := MCPProtocolValidator.validate_response fields in
  if negb is_valid
  then inr ("Invalid MCP response: " +:+ str_opt_str error)
  else inl fields.

(** ** [MCPRouter] *)

Module MCPRouter.

(** One entry of the capability matrix. *)
Record capabilities : Set := mk_capabilities {
  tasks : list TaskType.t;
  creativity : float;
  reasoning : float;
  speed : float;
  context_window : Z
}.

(** The class attribute [MODEL_CAPABILITIES]. *)
Definition MODEL_CAPABILITIES : gmap ModelType.t capabilities :=
  list_to_map
    [(ModelType.GPT4,
      {| tasks := [TaskType.CREATIVE; TaskType.REASONING;
                   TaskType.SUMMARIZATION; TaskType.GENERAL];
         creativity := 0.9;
         reasoning := 0.95;
         speed := 0.5;
         context_window := 128000 |});
     (ModelType.GPT35_TURBO,
      {| tasks := [TaskType.CLASSIFICATION; TaskType.EXTRACTION; TaskType.GENERAL];
         creativity := 0.7;
         reasoning := 0.7;
         speed := 0.9;
         context_window := 16384 |});
     (ModelType.CLAUDE_3_OPUS,
      {| tasks := [TaskType.REASONING; TaskType.CREATIVE; TaskType.SUMMARIZATION];
         creativity := 0.95;
         reasoning := 0.95;
         speed := 0.4;
         context_window := 200000 |});
     (ModelType.CLAUDE_3_SONNET,
      {| tasks := [TaskType.CLASSIFICATION; TaskType.EXTRACTION; TaskType.REASONING];
         creativity := 0.8;
         reasoning := 0.85;
         speed := 0.8;
         context_window := 200000 |});
     (ModelType.GEMINI_PRO,
      {| tasks := [TaskType.CREATIVE; TaskType.REASONING; TaskType.GENERAL];
         creativity := 0.85;
         reasoning := 0.85;
         speed := 0.7;
         context_window := 1000000 |});
     (ModelType.EMBEDDING,
      {| tasks := [TaskType.EMBEDDING];
         creativity := 0.0;
         reasoning := 0.0;
         speed := 1.0;
         context_window := 8191 |})].

(** A router instance: what [self.MODEL_CAPABILITIES] and
    [self.model_health] resolve to. The first is the class attribute
    unless an instance or a subclass rebinds it. *)
Record t : Type := mk {
  self_MODEL_CAPABILITIES : gmap ModelType.t capabilities;
  model_health : gmap ModelType.t bool
}.

(** [__init__]: every member of [ModelType] starts healthy. *)
Definition init : t * list log_record :=
  let health : gmap ModelType.t bool :=
    list_to_map (map (fun model => (model, true)) ModelType.members) in
  ({| self_MODEL_CAPABILITIES := MODEL_CAPABILITIES;
      model_health := health |},
   [(INFO, "MCP Router initialized with " +:+
           pretty (N.of_nat (size health)) +:+ " models")]).

(** [self.model_health.get(model, False)] *)
Definition is_model_healthy (self : t) (model : ModelType.t) : bool :=
  match model_health self !! model with
  | Some healthy => healthy
  | None => false
  end.

Definition mark_model_unhealthy (self : t) (model : ModelType.t)
    : t * list log_record :=
  ({| self_MODEL_CAPABILITIES := self_MODEL_CAPABILITIES self;
      model_health := <[model := false]> (model_health self) |},
   [(WARNING, "Model marked unhealthy: " +:+ ModelType.value model)]).

Definition mark_model_healthy (self : t) (model : ModelType.t)
    : t * list log_record :=
  ({| self_MODEL_CAPABILITIES := self_MODEL_CAPABILITIES self;
      model_health := <[model := true]> (model_health self) |},
   [(INFO, "Model marked healthy: " +:+ ModelType.value model)]).

(** The dictionary [get_model_stats] returns. *)
Record model_stats : Type := mk_model_stats {
  total_models : Z;
  healthy_models : Z;
  unhealthy_models : Z;
  model_status : gmap string string
}.

Definition get_model_stats (self : t) : model_stats :=
  let healthy_count :=
    Z.of_nat (size (filter (fun entry : ModelType.t * bool => entry.2 = true)
                      (model_health self))) in
  {| total_models := Z.of_nat (size (model_health self));
     healthy_models := healthy_count;
     unhealthy_models := Z.of_nat (size (model_health self)) - healthy_count;
     model_status :=
       list_to_map
         ((fun entry : ModelType.t * bool =>
             (ModelType.value entry.1,
              if entry.2 then "healthy" else "unhealthy"))
          <$> map_to_list (model_health self)) |}.

Definition _intelligent_selection (request : MCPRequest.t) : ModelType.t :=
  if MCPRequest.require_creativity request then ModelType.GPT4
  else if MCPRequest.require_reasoning request then ModelType.CLAUDE_3_OPUS
  else
    match MCPRequest.task_type request with
    | TaskType.CREATIVE => ModelType.GPT4
    | TaskType.REASONING => ModelType.CLAUDE_3_OPUS
    | TaskType.CLASSIFICATION => ModelType.GPT35_TURBO
    | TaskType.EXTRACTION =>
        if (Z.of_nat (String.length (MCPRequest.content request)) >? 2000)
        then ModelType.CLAUDE_3_SONNET
        else ModelType.GPT35_TURBO
    | TaskType.SUMMARIZATION => ModelType.GEMINI_PRO
    | _ => ModelType.GPT35_TURBO
    end.

(** The first block of [select_model]: the explicit model when it is
    given and healthy, with what the block logs. *)
Definition specified_model (self : t) (request : MCPRequest.t)
    : option ModelType.t * list log_record :=
  match MCPRequest.model request with
  | Some m =>
      if is_model_healthy self m
      then (Some m, [(DEBUG, "Using specified model: " +:+ ModelType.value m)])
      else (None, [(WARNING, "Specified model unhealthy: " +:+ ModelType.value m)])
  | None => (None, [])
  end.

Definition select_model (self : t) (request : MCPRequest.t)
    : ModelType.t * list log_record :=
  match specified_model self request with
  | (Some m, log1) => (m, log1)
  | (None, log1) =>
      if bool_decide (MCPRequest.task_type request = TaskType.EMBEDDING)
      then (ModelType.EMBEDDING, log1)
      else
        let selected_model := _intelligent_selection request in
        (selected_model,
         log1 ++
         [(INFO, "Router selected: " +:+ ModelType.value selected_model +:+
                 " for task=" +:+ TaskType.value (MCPRequest.task_type request))])
  end.

(** The local dictionary [fallback_map] of [get_fallback_model]; the
    entry of [EMBEDDING] has the value [None]. *)
Definition fallback_map : gmap ModelType.t (option ModelType.t) :=
  list_to_map
    [(ModelType.GPT4, Some ModelType.CLAUDE_3_OPUS);
     (ModelType.GPT35_TURBO, Some ModelType.CLAUDE_3_SONNET);
     (ModelType.CLAUDE_3_OPUS, Some ModelType.GPT4);
     (ModelType.CLAUDE_3_SONNET, Some ModelType.GPT35_TURBO);
     (ModelType.GEMINI_PRO, Some ModelType.GPT4);
     (ModelType.EMBEDDING, None)].

(** [fallback_map.get(primary_model)]: a missing key and a [None] value
    both give [None]. *)
Definition fallback_of (primary_model : ModelType.t) : option ModelType.t :=
  match fallback_map !! primary_model with
  | Some fallback => fallback
  | None => None
  end.

Definition get_fallback_model (self : t) (primary_model : ModelType.t)
    : option ModelType.t * list log_record :=
  match fallback_of primary_model with
  | Some fallback =>
      if is_model_healthy self fallback
      then (Some fallback,
            [(INFO, "Fallback: " +:+ ModelType.value primary_model +:+
                    " -> " +:+ ModelType.value fallback)])
      else (None,
            [(ERROR, "Fallback " +:+ ModelType.value fallback +:+
                     " also unhealthy")])
  | None => (None, [])
  end.

Definition validate_routing_decision (self : t) (request : MCPRequest.t)
    (selected_model : ModelType.t) : (bool * option string) * list log_record :=
  if negb (is_model_healthy self selected_model)
  then ((false, Some ("Selected model " +:+ ModelType.value selected_model +:+
                      " is unhealthy")), [])
  else
    match self_MODEL_CAPABILITIES self !! selected_model with
    | None =>
        ((false, Some ("Unknown model " +:+ ModelType.value selected_model)), [])
    | Some caps =>
        let log1 :=
          if negb (bool_decide (MCPRequest.task_type request ∈ tasks caps))
          then [(WARNING, "Model " +:+ ModelType.value selected_model +:+
                          " may not be optimal for " +:+
                          TaskType.value (MCPRequest.task_type request))]
          else [] in
        if truthy_int (MCPRequest.max_tokens request) &&
           match MCPRequest.max_tokens request with
           | Some n => n >? context_window caps
           | None => false
           end
        then ((false,
               Some ("Request max_tokens (" +:+
                     str_opt_int (MCPRequest.max_tokens request) +:+
                     ") exceeds context window (" +:+
                     pretty (context_window caps) +:+ ")")), log1)
        else ((true, None), log1)
    end.

End MCPRouter.

(** ** Concrete values used in the examples *)

Definition noon : datetime :=
  {| year := 2024; month := 5; day := 17;
     hour := 12; minute := 0; second := 0; microsecond := 0 |}.

(** The arguments of [MCPRequest(content=.., task_type=.., model=..,
    require_reasoning=.., require_creativity=.., max_tokens=..)],
    the other fields at the defaults of the dataclass. *)
Definition request_fields (content : string) (task_type : TaskType.t)
    (model : option ModelType.t) (require_reasoning require_creativity : bool)
    (max_tokens : option Z) : MCPRequest.t :=
  {| MCPRequest.request_id := "7f3e-0001";
     MCPRequest.content := content;
     MCPRequest.task_type := task_type;
     MCPRequest.model := model;
     MCPRequest.priority := MCPPriority.NORMAL;
     MCPRequest.require_reasoning := require_reasoning;
     MCPRequest.require_creativity := require_creativity;
     MCPRequest.max_tokens := max_tokens;
     MCPRequest.temperature := 0.7;
     MCPRequest.context := None;
     MCPRequest.use_context := true;
     MCPRequest.cache_enabled := true;
     MCPRequest.cache_ttl := 3600;
     MCPRequest.agent_name := None;
     MCPRequest.timestamp := noon;
     MCPRequest.metadata := [] |}.

(** The request these arguments construct: [__post_init__] has run and
    has attached a fresh context. *)
Definition request_of (content : string) (task_type : TaskType.t)
    (model : option ModelType.t) (require_reasoning require_creativity : bool)
    (max_tokens : option Z) : MCPRequest.t :=
  (MCPRequest.post_init "c0a8-0001"
     (request_fields content task_type model
        require_reasoning require_creativity max_tokens)).1.

(** [MCPResponse(request_id=.., content=.., model_used=.., context=..)],
    the other fields at the defaults of the dataclass. *)
Definition response_of (content : string) (model_used : ModelType.t)
    (context : option MCPContext.t) : MCPResponse.t :=
  {| MCPResponse.request_id := "7f3e-0001";
     MCPResponse.content := content;
     MCPResponse.model_used := model_used;
     MCPResponse.success := true;
     MCPResponse.latency_ms := 0.0;
     MCPResponse.tokens_used := 0;
     MCPResponse.cached := false;
     MCPResponse.context := context;
     MCPResponse.error := None;
     MCPResponse.fallback_used := false;
     MCPResponse.fallback_model := None;
     MCPResponse.timestamp := noon;
     MCPResponse.metadata := [] |}.

(** [MCPResponse(request_id=.., content="", model_used=.., success=False,
    latency_ms=.., error=.., fallback_used=True, fallback_model=..)]:
    a failed call that went through a fallback. *)
Definition failed_response_of (model_used : ModelType.t) (latency_ms : float)
    (error : option string) (fallback_model : option ModelType.t) : MCPResponse.t :=
  {| MCPResponse.request_id := "7f3e-0001";
     MCPResponse.content := "";
     MCPResponse.model_used := model_used;
     MCPResponse.success := false;
     MCPResponse.latency_ms := latency_ms;
     MCPResponse.tokens_used := 0;
     MCPResponse.cached := false;
     MCPResponse.context := None;
     MCPResponse.error := error;
     MCPResponse.fallback_used := true;
     MCPResponse.fallback_model := fallback_model;
     MCPResponse.timestamp := noon;
     MCPResponse.metadata := [] |}.

(** [MCPRouter()] *)
Definition fresh_router : MCPRouter.t := MCPRouter.init.1.

(** [MCPRouter()] after [mark_model_unhealthy(model)]. *)
Definition router_without (model : ModelType.t) : MCPRouter.t :=
  (MCPRouter.mark_model_unhealthy fresh_router model).1.

(** A text of [n] characters. *)
Definition text_of_length (n : nat) : string :=
  String.concat "" (replicate n "x").

(** ** Vocabulary of the statements *)

(** The request carries no explicit model that is healthy now: either
    no model is given, or the one given is unhealthy. *)
Definition no_healthy_override (self : MCPRouter.t) (request : MCPRequest.t) : Prop :=
  forall m,
    MCPRequest.model request = Some m ->
    MCPRouter.is_model_healthy self m = false.

(** Two requests that differ at most in their timestamp. *)
Definition request_equal_up_to_timestamp (a b : MCPRequest.t) : Prop :=
  MCPRequest.request_id a = MCPRequest.request_id b /\
  MCPRequest.content a = MCPRequest.content b /\
  MCPRequest.task_type a = MCPRequest.task_type b /\
  MCPRequest.model a = MCPRequest.model b /\
  MCPRequest.priority a = MCPRequest.priority b /\
  MCPRequest.require_reasoning a = MCPRequest.require_reasoning b /\
  MCPRequest.require_creativity a = MCPRequest.require_creativity b /\
  MCPRequest.max_tokens a = MCPRequest.max_tokens b /\
  MCPRequest.temperature a = MCPRequest.temperature b /\
  MCPRequest.context a = MCPRequest.context b /\
  MCPRequest.use_context a = MCPRequest.use_context b /\
  MCPRequest.cache_enabled a = MCPRequest.cache_enabled b /\
  MCPRequest.cache_ttl a = MCPRequest.cache_ttl b /\
  MCPRequest.agent_name a = MCPRequest.agent_name b /\
  MCPRequest.metadata a = MCPRequest.metadata b.

(** Two requests that agree on every field [MCPRequest.to_dict] emits:
    all but [context] and [use_context], the timestamp as its ISO-8601
    text. *)
Definition request_equal_as_emitted (a b : MCPRequest.t) : Prop :=
  MCPRequest.request_id a = MCPRequest.request_id b /\
  MCPRequest.content a = MCPRequest.content b /\
  MCPRequest.task_type a = MCPRequest.task_type b /\
  MCPRequest.model a = MCPRequest.model b /\
  MCPRequest.priority a = MCPRequest.priority b /\
  MCPRequest.require_reasoning a = MCPRequest.require_reasoning b /\
  MCPRequest.require_creativity a = MCPRequest.require_creativity b /\
  MCPRequest.max_tokens a = MCPRequest.max_tokens b /\
  MCPRequest.temperature a = MCPRequest.temperature b /\
  MCPRequest.cache_enabled a = MCPRequest.cache_enabled b /\
  MCPRequest.cache_ttl a = MCPRequest.cache_ttl b /\
  MCPRequest.agent_name a = MCPRequest.agent_name b /\
  isoformat (MCPRequest.timestamp a) = isoformat (MCPRequest.timestamp b) /\
  MCPRequest.metadata a = MCPRequest.metadata b.

(** Two responses that differ at most in their timestamp. *)
Definition response_equal_up_to_timestamp (a b : MCPResponse.t) : Prop :=
  MCPResponse.request_id a = MCPResponse.request_id b /\
  MCPResponse.content a = MCPResponse.content b /\
  MCPResponse.model_used a = MCPResponse.model_used b /\
  MCPResponse.success a = MCPResponse.success b /\
  MCPResponse.latency_ms a = MCPResponse.latency_ms b /\
  MCPResponse.tokens_used a = MCPResponse.tokens_used b /\
  MCPResponse.cached a = MCPResponse.cached b /\
  MCPResponse.context a = MCPResponse.context b /\
  MCPResponse.error a = MCPResponse.error b /\
  MCPResponse.fallback_used a = MCPResponse.fallback_used b /\
  MCPResponse.fallback_model a = MCPResponse.fallback_model b /\
  MCPResponse.metadata a = MCPResponse.metadata b.

(** Two responses that agree on every field [MCPResponse.to_dict]
    emits: all but [context], the timestamp as its ISO-8601 text. *)
Definition response_equal_as_emitted (a b : MCPResponse.t) : Prop :=
  MCPResponse.request_id a = MCPResponse.request_id b /\
  MCPResponse.content a = MCPResponse.content b /\
  MCPResponse.model_used a = MCPResponse.model_used b /\
  MCPResponse.success a = MCPResponse.success b /\
  MCPResponse.latency_ms a = MCPResponse.latency_ms b /\
  MCPResponse.tokens_used a = MCPResponse.tokens_used b /\
  MCPResponse.cached a = MCPResponse.cached b /\
  MCPResponse.error a = MCPResponse.error b /\
  MCPResponse.fallback_used a = MCPResponse.fallback_used b /\
  MCPResponse.fallback_model a = MCPResponse.fallback_model b /\
  isoformat (MCPResponse.timestamp a) = isoformat (MCPResponse.timestamp b) /\
  MCPResponse.metadata a = MCPResponse.metadata b.

(** A request, a response that the validator accepts. *)
Definition valid_request (request : MCPRequest.t) : Prop :=
  MCPProtocolValidator.validate_request request = (true, None).

Definition valid_response (response : MCPResponse.t) : Prop :=
  MCPProtocolValidator.validate_response response = (true, None).

(** The router states a program can reach: a new router, and what the
    two marking methods make of a reachable state. *)
Inductive reachable : MCPRouter.t -> Prop :=
| reachable_init : reachable MCPRouter.init.1
| reachable_mark_unhealthy self model :
    reachable self -> reachable (MCPRouter.mark_model_unhealthy self model).1
| reachable_mark_healthy self model :
    reachable self -> reachable (MCPRouter.mark_model_healthy self model).1.


(** Closes a goal from [H : x ∈ [a; b; ...]] when [x] is none of the
    listed constructors. *)
Ltac not_in_list H :=
  repeat (apply elem_of_cons in H as [H|H]; [discriminate H|]);
  by apply elem_of_nil in H.

(** * Properties *)

Module ProtocolProperties.
Import MCPProtocolValidator.

(** *** [validate_request] *)

(** The rules of [validate_request], in the order they are checked.
    The test on [max_tokens] rejects the negative values only:
    [request.max_tokens and ...] is false for [0]. *)
Lemma validate_request_rules (request : MCPRequest.t) :
  validate_request request =
  if negb (truthy_str (MCPRequest.content request)) &&
     negb (bool_decide (MCPRequest.task_type request = TaskType.EMBEDDING))
  then (false, Some "Request content cannot be empty")
  else if match MCPRequest.max_tokens request with
          | Some n => n <? 0
          | None => false
          end
  then (false, Some "max_tokens must be positive")
  else if negb (PrimFloat.leb 0 (MCPRequest.temperature request) &&
                PrimFloat.leb (MCPRequest.temperature request) 2.0)
  then (false, Some "temperature must be between 0 and 2.0")
  else if MCPRequest.cache_ttl request <? 0
  then (false, Some "cache_ttl cannot be negative")
  else (true, None).
Proof.
  unfold validate_request, truthy_int.
  destruct (MCPRequest.max_tokens request) as [n|]; [|done].
  replace (negb (n =? 0) && (n <=? 0)) with (n <? 0); [done|].
  destruct (Z.eqb_spec n 0), (Z.leb_spec n 0), (Z.ltb_spec n 0); simpl; lia.
Qed.

(** A request with [max_tokens = 0] is never rejected for its
    [max_tokens]. *)
Lemma validate_request_max_tokens_zero (request : MCPRequest.t) :
  MCPRequest.max_tokens request = Some 0 ->
  validate_request request <> (false, Some "max_tokens must be positive").
Proof.
  intros Hmax. rewrite validate_request_rules, Hmax. simpl.
  repeat case_match; discriminate.
Qed.

(** C5, at the input where the code departs from it: a request with
    [max_tokens = 0] and nothing else amiss is accepted, where the claim
    has it rejected with the message of [max_tokens]. *)
Theorem validate_request_accepts_max_tokens_zero :
  MCPRequest.max_tokens
    (request_of "Summarize this" TaskType.GENERAL None false false (Some 0))
  = Some 0 /\
  validate_request
    (request_of "Summarize this" TaskType.GENERAL None false false (Some 0))
  = (true, None).
Proof. split; vm_compute; reflexivity. Qed.

(** The other rules behave as listed: each is reported when the ones
    before it hold, and a negative [max_tokens] is rejected. *)
Example validate_request_cases :
  validate_request (request_of "" TaskType.GENERAL None false false (Some (-1)))
  = (false, Some "Request content cannot be empty") /\
  validate_request (request_of "" TaskType.EMBEDDING None false false None)
  = (true, None) /\
  validate_request (request_of "hello" TaskType.GENERAL None false false (Some (-1)))
  = (false, Some "max_tokens must be positive") /\
  validate_request (request_of "hello" TaskType.GENERAL None false false (Some 1))
  = (true, None).
Proof. split_and!; vm_compute; reflexivity. Qed.

(** *** [to_dict] *)

#[local] Instance TaskType_value_inj : Inj (=) (=) TaskType.value.
Proof. intros [] [] H; (reflexivity || discriminate H). Qed.

#[local] Instance ModelType_value_inj : Inj (=) (=) ModelType.value.
Proof. intros [] [] H; (reflexivity || discriminate H). Qed.

#[local] Instance MCPPriority_value_inj : Inj (=) (=) MCPPriority.value.
Proof. intros [] [] H; (reflexivity || discriminate H). Qed.

#[local] Instance model_value_or_None_inj : Inj (=) (=) model_value_or_None.
Proof.
  intros [a|] [b|] H; simpl in H; try discriminate H; [|done].
  injection H as H. by apply (inj ModelType.value) in H as ->.
Qed.

#[local] Instance PStr_or_None_inj : Inj (=) (=) PStr_or_None.
Proof. intros [a|] [b|] H; simpl in H; congruence. Qed.

#[local] Instance PInt_or_None_inj : Inj (=) (=) PInt_or_None.
Proof. intros [a|] [b|] H; simpl in H; congruence. Qed.

Lemma request_to_dict_emitted (a b : MCPRequest.t) :
  MCPRequest.to_dict a = MCPRequest.to_dict b -> request_equal_as_emitted a b.
Proof.
  unfold MCPRequest.to_dict. intros H.
  injection H as Hid Hcontent Htask Hmodel Hprio Hreas Hcrea Hmax Htemp
    Hcache Httl Hagent Hts Hmeta.
  apply (inj TaskType.value) in Htask.
  apply (inj model_value_or_None) in Hmodel.
  apply (inj MCPPriority.value) in Hprio.
  apply (inj PInt_or_None) in Hmax.
  apply (inj PStr_or_None) in Hagent.
  by repeat split.
Qed.

Lemma response_to_dict_emitted (a b : MCPResponse.t) :
  MCPResponse.to_dict a = MCPResponse.to_dict b -> response_equal_as_emitted a b.
Proof.
  unfold MCPResponse.to_dict. intros H.
  injection H as Hid Hcontent Hmodel Hsucc Hlat Htok Hcached Herr Hfb Hfbm
    Hts Hmeta.
  apply (inj ModelType.value) in Hmodel.
  apply (inj PStr_or_None) in Herr.
  apply (inj model_value_or_None) in Hfbm.
  by repeat split.
Qed.

(** No function of the transport dictionary restores a request: two
    valid requests with different contexts have the same dictionary. *)
Lemma request_from_dict_impossible :
  ~ exists from_dict : list (string * pyval) -> MCPRequest.t,
      forall request,
        valid_request request ->
        request_equal_up_to_timestamp
          (from_dict (MCPRequest.to_dict request)) request.
Proof.
  intros [from_dict Hrt].
  pose (fields := request_fields "hello" TaskType.GENERAL None false false None).
  pose (r1 := (MCPRequest.post_init "c0a8-0001" fields).1).
  pose (r2 := (MCPRequest.post_init "c0a8-0002" fields).1).
  assert (H1 : valid_request r1) by (vm_compute; reflexivity).
  assert (H2 : valid_request r2) by (vm_compute; reflexivity).
  apply Hrt in H1 as (_ & _ & _ & _ & _ & _ & _ & _ & _ & Hc1 & _).
  apply Hrt in H2 as (_ & _ & _ & _ & _ & _ & _ & _ & _ & Hc2 & _).
  change (MCPRequest.to_dict r2) with (MCPRequest.to_dict r1) in Hc2.
  rewrite Hc1 in Hc2. discriminate Hc2.
Qed.

Lemma response_from_dict_impossible :
  ~ exists from_dict : list (string * pyval) -> MCPResponse.t,
      forall response,
        valid_response response ->
        response_equal_up_to_timestamp
          (from_dict (MCPResponse.to_dict response)) response.
Proof.
  intros [from_dict Hrt].
  pose (r1 := response_of "done" ModelType.GPT4 None).
  pose (r2 := response_of "done" ModelType.GPT4 (Some (MCPContext.new "c0a8-0001"))).
  assert (H1 : valid_response r1) by (vm_compute; reflexivity).
  assert (H2 : valid_response r2) by (vm_compute; reflexivity).
  apply Hrt in H1 as (_ & _ & _ & _ & _ & _ & _ & Hc1 & _).
  apply Hrt in H2 as (_ & _ & _ & _ & _ & _ & _ & Hc2 & _).
  change (MCPResponse.to_dict r2) with (MCPResponse.to_dict r1) in Hc2.
  rewrite Hc1 in Hc2. discriminate Hc2.
Qed.

(** C9, as stated, fails: two valid requests built from the same
    arguments, each with the fresh context [__post_init__] attached,
    have the same transport dictionary and different contexts; so do a
    response without a context and the same response with one. Hence
    no deserializer restores every field but the timestamp. *)
Lemma to_dict_round_trip_counterexample :
  (valid_request (request_of "hello" TaskType.GENERAL None false false None) /\
   valid_request
     (MCPRequest.post_init "c0a8-0002"
        (request_fields "hello" TaskType.GENERAL None false false None)).1 /\
   MCPRequest.to_dict (request_of "hello" TaskType.GENERAL None false false None) =
   MCPRequest.to_dict
     (MCPRequest.post_init "c0a8-0002"
        (request_fields "hello" TaskType.GENERAL None false false None)).1 /\
   MCPRequest.context (request_of "hello" TaskType.GENERAL None false false None) <>
   MCPRequest.context
     (MCPRequest.post_init "c0a8-0002"
        (request_fields "hello" TaskType.GENERAL None false false None)).1) /\
  (valid_response (response_of "done" ModelType.GPT4 None) /\
   valid_response
     (response_of "done" ModelType.GPT4 (Some (MCPContext.new "c0a8-0001"))) /\
   MCPResponse.to_dict (response_of "done" ModelType.GPT4 None) =
   MCPResponse.to_dict
     (response_of "done" ModelType.GPT4 (Some (MCPContext.new "c0a8-0001"))) /\
   MCPResponse.context (response_of "done" ModelType.GPT4 None) <>
   MCPResponse.context
     (response_of "done" ModelType.GPT4 (Some (MCPContext.new "c0a8-0001")))) /\
  (~ exists from_dict : list (string * pyval) -> MCPRequest.t,
       forall request,
         valid_request request ->
         request_equal_up_to_timestamp
           (from_dict (MCPRequest.to_dict request)) request) /\
  (~ exists from_dict : list (string * pyval) -> MCPResponse.t,
       forall response,
         valid_response response ->
         response_equal_up_to_timestamp
           (from_dict (MCPResponse.to_dict response)) response).
Proof.
  split_and!; try (vm_compute; reflexivity); try discriminate.
  - apply request_from_dict_impossible.
  - apply response_from_dict_impossible.
Qed.

(** C9, amended: the transport dictionary determines every field it
    emits. Two requests with the same dictionary agree on all fields
    but [context] and [use_context], and two responses on all fields
    but [context]; the timestamps agree as ISO-8601 texts. *)
Theorem to_dict_determines_emitted_fields :
  (forall a b : MCPRequest.t,
     MCPRequest.to_dict a = MCPRequest.to_dict b -> request_equal_as_emitted a b) /\
  (forall a b : MCPResponse.t,
     MCPResponse.to_dict a = MCPResponse.to_dict b -> response_equal_as_emitted a b).
Proof.
  split; [apply request_to_dict_emitted | apply response_to_dict_emitted].
Qed.

Lemma to_dict_determines_emitted_fields_witness :
  request_equal_as_emitted
    (request_of "hello" TaskType.GENERAL None false false None)
    (MCPRequest.post_init "c0a8-0002"
       (request_fields "hello" TaskType.GENERAL None false false None)).1.
Proof.
  apply (proj1 to_dict_determines_emitted_fields
           (request_of "hello" TaskType.GENERAL None false false None)
           (MCPRequest.post_init "c0a8-0002"
              (request_fields "hello" TaskType.GENERAL None false false None)).1).
  reflexivity.
Defined.

End ProtocolProperties.

Module RouterProperties.
Import MCPRouter.

(** *** The health registry *)

Lemma fresh_router_healthy (m : ModelType.t) :
  is_model_healthy fresh_router m = true.
Proof. by destruct m. Qed.

Lemma is_model_healthy_mark_unhealthy (self : MCPRouter.t) (m m' : ModelType.t) :
  is_model_healthy (mark_model_unhealthy self m).1 m' =
  if decide (m = m') then false else is_model_healthy self m'.
Proof.
  unfold is_model_healthy, mark_model_unhealthy; simpl.
  rewrite lookup_insert. by case_decide.
Qed.

Lemma is_model_healthy_mark_healthy (self : MCPRouter.t) (m m' : ModelType.t) :
  is_model_healthy (mark_model_healthy self m).1 m' =
  if decide (m = m') then true else is_model_healthy self m'.
Proof.
  unfold is_model_healthy, mark_model_healthy; simpl.
  rewrite lookup_insert. by case_decide.
Qed.

Lemma router_without_healthy (m m' : ModelType.t) :
  is_model_healthy (router_without m) m' = bool_decide (m <> m').
Proof.
  unfold router_without. rewrite is_model_healthy_mark_unhealthy.
  rewrite fresh_router_healthy.
  case_decide; case_bool_decide; congruence.
Qed.

(** *** The explicit model *)

Lemma specified_model_healthy (self : MCPRouter.t) (request : MCPRequest.t)
    (m : ModelType.t) :
  MCPRequest.model request = Some m ->
  is_model_healthy self m = true ->
  (specified_model self request).1 = Some m.
Proof. intros Hm Hh. unfold specified_model. by rewrite Hm, Hh. Qed.

Lemma specified_model_rejected (self : MCPRouter.t) (request : MCPRequest.t) :
  no_healthy_override self request ->
  (specified_model self request).1 = None.
Proof.
  intros Hno. unfold specified_model.
  destruct (MCPRequest.model request) as [m|] eqn:Hm; [|done].
  by rewrite (Hno m Hm).
Qed.

(** Without a healthy explicit model, [select_model] is the embedding
    rule followed by [_intelligent_selection]. *)
Lemma select_model_fall_through (self : MCPRouter.t) (request : MCPRequest.t) :
  no_healthy_override self request ->
  (select_model self request).1 =
  if bool_decide (MCPRequest.task_type request = TaskType.EMBEDDING)
  then ModelType.EMBEDDING
  else _intelligent_selection request.
Proof.
  intros Hno%specified_model_rejected. unfold select_model.
  destruct (specified_model self request) as [[m|] log1]; simpl in *; [done|].
  by case_bool_decide.
Qed.

Lemma _intelligent_selection_not_embedding (request : MCPRequest.t) :
  _intelligent_selection request <> ModelType.EMBEDDING.
Proof.
  unfold _intelligent_selection.
  repeat case_match; discriminate.
Qed.

(** The embedding backend is returned only for an embedding task or as
    a healthy explicit model. *)
Lemma select_model_embedding_inv (self : MCPRouter.t) (request : MCPRequest.t) :
  (select_model self request).1 = ModelType.EMBEDDING ->
  MCPRequest.task_type request = TaskType.EMBEDDING \/
  (MCPRequest.model request = Some ModelType.EMBEDDING /\
   is_model_healthy self ModelType.EMBEDDING = true).
Proof.
  unfold select_model, specified_model.
  destruct (MCPRequest.model request) as [m|];
    [destruct (is_model_healthy self m) eqn:Hh|]; simpl.
  - intros ->. by right.
  - case_bool_decide; [by left|].
    intros Hsel. by destruct (_intelligent_selection_not_embedding request).
  - case_bool_decide; [by left|].
    intros Hsel. by destruct (_intelligent_selection_not_embedding request).
Qed.

(** *** The capability matrix *)

Lemma MODEL_CAPABILITIES_total (m : ModelType.t) :
  is_Some (MODEL_CAPABILITIES !! m).
Proof. destruct m; vm_compute; eauto. Qed.

Lemma MODEL_CAPABILITIES_context_window_pos (m : ModelType.t) (caps : capabilities) :
  MODEL_CAPABILITIES !! m = Some caps -> 0 < context_window caps.
Proof. destruct m; vm_compute; intros [= <-]; reflexivity. Qed.

(** [GPT4] handles general tasks, and no backend that handles general
    tasks has a higher creativity. *)
Lemma GPT4_highest_creativity_general_purpose :
  exists c4,
    MODEL_CAPABILITIES !! ModelType.GPT4 = Some c4 /\
    TaskType.GENERAL ∈ tasks c4 /\
    forall m c,
      MODEL_CAPABILITIES !! m = Some c ->
      TaskType.GENERAL ∈ tasks c ->
      PrimFloat.leb (creativity c) (creativity c4) = true.
Proof.
  eexists. split; [reflexivity|]. split; [set_solver|].
  intros m c Hm Hgen.
  destruct m; vm_compute in Hm; injection Hm as <-; try reflexivity;
    simpl in Hgen; not_in_list Hgen.
Qed.

(** No backend has a higher reasoning than [CLAUDE_3_OPUS]. *)
Lemma CLAUDE_3_OPUS_highest_reasoning :
  exists c3,
    MODEL_CAPABILITIES !! ModelType.CLAUDE_3_OPUS = Some c3 /\
    forall m c,
      MODEL_CAPABILITIES !! m = Some c ->
      PrimFloat.leb (reasoning c) (reasoning c3) = true.
Proof.
  eexists. split; [reflexivity|].
  intros m c Hm.
  destruct m; vm_compute in Hm; injection Hm as <-; reflexivity.
Qed.

(** *** [select_model] *)

(** C3: a request whose explicit model is healthy is routed to exactly
    that model; nothing else of the request is looked at (neither the
    embedding rule nor [require_creativity] / [require_reasoning]), and
    the only record logged is the debug line. *)
Theorem select_model_healthy_override (self : MCPRouter.t)
    (request : MCPRequest.t) (m : ModelType.t) :
  MCPRequest.model request = Some m ->
  is_model_healthy self m = true ->
  select_model self request =
  (m, [(DEBUG, "Using specified model: " +:+ ModelType.value m)]).
Proof.
  intros Hm Hh. unfold select_model, specified_model.
  by rewrite Hm, Hh.
Qed.

Lemma select_model_healthy_override_witness :
  select_model fresh_router
    (request_of "" TaskType.EMBEDDING (Some ModelType.CLAUDE_3_SONNET) true true None) =
  (ModelType.CLAUDE_3_SONNET, [(DEBUG, "Using specified model: claude-3-sonnet")]).
Proof.
  apply (select_model_healthy_override fresh_router
           (request_of "" TaskType.EMBEDDING (Some ModelType.CLAUDE_3_SONNET)
              true true None)
           ModelType.CLAUDE_3_SONNET); reflexivity.
Defined.

(** C1, as stated, fails: an embedding request whose explicit model
    [GPT4] is healthy is routed to [GPT4]. *)
Lemma select_model_embedding_override_counterexample :
  MCPRequest.task_type
    (request_of "vectorize" TaskType.EMBEDDING (Some ModelType.GPT4) false false None)
  = TaskType.EMBEDDING /\
  is_model_healthy fresh_router ModelType.GPT4 = true /\
  (select_model fresh_router
     (request_of "vectorize" TaskType.EMBEDDING (Some ModelType.GPT4)
        false false None)).1
  = ModelType.GPT4.
Proof. repeat split. Qed.

(** C1, amended: an embedding request with no healthy explicit model is
    routed to the embedding backend, whatever the health registry says
    about the embedding backend and whatever the content. *)
Theorem select_model_embedding (self : MCPRouter.t) (request : MCPRequest.t) :
  MCPRequest.task_type request = TaskType.EMBEDDING ->
  no_healthy_override self request ->
  (select_model self request).1 = ModelType.EMBEDDING.
Proof.
  intros Htask Hno. rewrite select_model_fall_through by done.
  by rewrite bool_decide_eq_true_2.
Qed.

Lemma select_model_embedding_witness :
  (select_model (router_without ModelType.EMBEDDING)
     (request_of "" TaskType.EMBEDDING (Some ModelType.EMBEDDING) true true None)).1
  = ModelType.EMBEDDING.
Proof.
  apply (select_model_embedding (router_without ModelType.EMBEDDING)
           (request_of "" TaskType.EMBEDDING (Some ModelType.EMBEDDING)
              true true None)).
  - reflexivity.
  - intros m Hm. vm_compute in Hm. injection Hm as <-. reflexivity.
Defined.

(** C2, as stated, fails: with [GPT4] given explicitly and unhealthy,
    a request that requires creativity is still routed to [GPT4], by
    the heuristic selection. *)
Lemma select_model_unhealthy_override_counterexample :
  MCPRequest.model
    (request_of "Write a poem" TaskType.GENERAL (Some ModelType.GPT4) false true None)
  = Some ModelType.GPT4 /\
  is_model_healthy (router_without ModelType.GPT4) ModelType.GPT4 = false /\
  (select_model (router_without ModelType.GPT4)
     (request_of "Write a poem" TaskType.GENERAL (Some ModelType.GPT4)
        false true None)).1
  = ModelType.GPT4.
Proof. repeat split. Qed.

(** C2, amended: an unhealthy explicit model is logged as rejected and
    then ignored: the request is routed as the embedding rule and the
    heuristic selection decide, which do not consult the health
    registry. *)
Theorem select_model_unhealthy_override (self : MCPRouter.t)
    (request : MCPRequest.t) (m : ModelType.t) :
  MCPRequest.model request = Some m ->
  is_model_healthy self m = false ->
  (select_model self request).1 =
    (if bool_decide (MCPRequest.task_type request = TaskType.EMBEDDING)
     then ModelType.EMBEDDING
     else _intelligent_selection request) /\
  (WARNING, "Specified model unhealthy: " +:+ ModelType.value m)
    ∈ (select_model self request).2.
Proof.
  intros Hm Hh. split.
  - apply select_model_fall_through. intros m' Hm'. congruence.
  - unfold select_model, specified_model. rewrite Hm, Hh.
    case_bool_decide; simpl; set_solver+.
Qed.

Lemma select_model_unhealthy_override_witness :
  (select_model (router_without ModelType.GEMINI_PRO)
     (request_of "Classify this" TaskType.CLASSIFICATION (Some ModelType.GEMINI_PRO)
        false false None)).1
  = ModelType.GPT35_TURBO /\
  (WARNING, "Specified model unhealthy: gemini-pro")
    ∈ (select_model (router_without ModelType.GEMINI_PRO)
         (request_of "Classify this" TaskType.CLASSIFICATION
            (Some ModelType.GEMINI_PRO) false false None)).2.
Proof.
  apply (select_model_unhealthy_override (router_without ModelType.GEMINI_PRO)
           (request_of "Classify this" TaskType.CLASSIFICATION
              (Some ModelType.GEMINI_PRO) false false None)
           ModelType.GEMINI_PRO); reflexivity.
Defined.

(** C10: a request with no explicit model and a task type other than
    embedding is never routed to the embedding backend, in any state of
    the health registry. *)
Theorem select_model_never_embedding (self : MCPRouter.t) (request : MCPRequest.t) :
  MCPRequest.model request = None ->
  MCPRequest.task_type request <> TaskType.EMBEDDING ->
  (select_model self request).1 <> ModelType.EMBEDDING.
Proof.
  intros Hm Htask Hsel.
  destruct (select_model_embedding_inv self request Hsel) as [?|[? _]]; congruence.
Qed.

Lemma select_model_never_embedding_witness :
  MCPRequest.model (request_of "" TaskType.GENERAL None false false None) = None /\
  (select_model (router_without ModelType.GPT35_TURBO)
     (request_of "" TaskType.GENERAL None false false None)).1
  <> ModelType.EMBEDDING.
Proof.
  split; [reflexivity|].
  apply (select_model_never_embedding (router_without ModelType.GPT35_TURBO)
           (request_of "" TaskType.GENERAL None false false None)).
  - reflexivity.
  - vm_compute. discriminate.
Defined.

(** *** [_intelligent_selection] *)

(** C4: when no healthy explicit model applies and the task is not an
    embedding, the request is routed by the first rule that matches, in
    this order: [require_creativity] (to [GPT4], the most creative
    backend among those that handle general tasks), then
    [require_reasoning] (to [CLAUDE_3_OPUS], which no backend exceeds in
    reasoning), then the task type. In particular [require_creativity]
    wins over every task type. *)
Theorem select_model_priority_order (self : MCPRouter.t) (request : MCPRequest.t) :
  no_healthy_override self request ->
  MCPRequest.task_type request <> TaskType.EMBEDDING ->
  (MCPRequest.require_creativity request = true ->
   (select_model self request).1 = ModelType.GPT4) /\
  (MCPRequest.require_creativity request = false ->
   MCPRequest.require_reasoning request = true ->
   (select_model self request).1 = ModelType.CLAUDE_3_OPUS) /\
  (MCPRequest.require_creativity request = false ->
   MCPRequest.require_reasoning request = false ->
   (select_model self request).1 =
   match MCPRequest.task_type request with
   | TaskType.CREATIVE => ModelType.GPT4
   | TaskType.REASONING => ModelType.CLAUDE_3_OPUS
   | TaskType.CLASSIFICATION => ModelType.GPT35_TURBO
   | TaskType.EXTRACTION =>
       if Z.of_nat (String.length (MCPRequest.content request)) <=? 2000
       then ModelType.GPT35_TURBO
       else ModelType.CLAUDE_3_SONNET
   | TaskType.SUMMARIZATION => ModelType.GEMINI_PRO
   | TaskType.EMBEDDING | TaskType.GENERAL => ModelType.GPT35_TURBO
   end) /\
  (exists c4,
     MODEL_CAPABILITIES !! ModelType.GPT4 = Some c4 /\
     TaskType.GENERAL ∈ tasks c4 /\
     forall m c,
       MODEL_CAPABILITIES !! m = Some c ->
       TaskType.GENERAL ∈ tasks c ->
       PrimFloat.leb (creativity c) (creativity c4) = true) /\
  (exists c3,
     MODEL_CAPABILITIES !! ModelType.CLAUDE_3_OPUS = Some c3 /\
     forall m c,
       MODEL_CAPABILITIES !! m = Some c ->
       PrimFloat.leb (reasoning c) (reasoning c3) = true).
Proof.
  intros Hno Htask.
  rewrite select_model_fall_through by done.
  rewrite bool_decide_eq_false_2 by done.
  unfold _intelligent_selection.
  split_and!.
  - by intros ->.
  - by intros -> ->.
  - intros -> ->. destruct (MCPRequest.task_type request); try done.
    rewrite Z.gtb_ltb, Z.leb_antisym. by destruct (_ <? _).
  - apply GPT4_highest_creativity_general_purpose.
  - apply CLAUDE_3_OPUS_highest_reasoning.
Qed.

Lemma select_model_priority_order_witness :
  (select_model fresh_router
     (request_of "Is this spam?" TaskType.CLASSIFICATION None true true None)).1
  = ModelType.GPT4.
Proof.
  apply (select_model_priority_order fresh_router
           (request_of "Is this spam?" TaskType.CLASSIFICATION None true true None)).
  - intros m Hm. vm_compute in Hm. discriminate Hm.
  - vm_compute. discriminate.
  - reflexivity.
Defined.

(** C8: an extraction request that reaches the task dispatch is routed
    by the length of its content: up to 2000 characters to
    [GPT35_TURBO], beyond to [CLAUDE_3_SONNET]; so 2500 characters go to
    [CLAUDE_3_SONNET] and 500 characters to [GPT35_TURBO]. *)
Theorem select_model_extraction (self : MCPRouter.t) (request : MCPRequest.t) :
  no_healthy_override self request ->
  MCPRequest.task_type request = TaskType.EXTRACTION ->
  MCPRequest.require_creativity request = false ->
  MCPRequest.require_reasoning request = false ->
  (select_model self request).1 =
    (if Z.of_nat (String.length (MCPRequest.content request)) <=? 2000
     then ModelType.GPT35_TURBO
     else ModelType.CLAUDE_3_SONNET) /\
  (String.length (MCPRequest.content request) = 2500%nat ->
   (select_model self request).1 = ModelType.CLAUDE_3_SONNET) /\
  (String.length (MCPRequest.content request) = 500%nat ->
   (select_model self request).1 = ModelType.GPT35_TURBO).
Proof.
  intros Hno Htask Hc Hr.
  rewrite select_model_fall_through by done.
  rewrite Htask. simpl. unfold _intelligent_selection.
  rewrite Hc, Hr, Htask, Z.gtb_ltb, Z.leb_antisym.
  split_and!.
  - by destruct (_ <? _).
  - by intros ->.
  - by intros ->.
Qed.

Lemma select_model_extraction_witness :
  (select_model fresh_router
     (request_of (text_of_length 2500) TaskType.EXTRACTION None false false None)).1
  = ModelType.CLAUDE_3_SONNET.
Proof.
  apply (select_model_extraction fresh_router
           (request_of (text_of_length 2500) TaskType.EXTRACTION None
              false false None)).
  - intros m Hm. vm_compute in Hm. discriminate Hm.
  - reflexivity.
  - reflexivity.
  - reflexivity.
  - vm_compute. reflexivity.
Defined.

(** The two sides of the threshold, and the same request after the
    selected backends were marked unhealthy: the heuristic selection
    does not read the registry. *)
Example select_model_extraction_2000 :
  (select_model fresh_router
     (request_of (text_of_length 2000) TaskType.EXTRACTION None false false None)).1
  = ModelType.GPT35_TURBO /\
  (select_model fresh_router
     (request_of (text_of_length 2001) TaskType.EXTRACTION None false false None)).1
  = ModelType.CLAUDE_3_SONNET /\
  (select_model (router_without ModelType.GPT35_TURBO)
     (request_of (text_of_length 500) TaskType.EXTRACTION None false false None)).1
  = ModelType.GPT35_TURBO.
Proof. split_and!; vm_compute; reflexivity. Qed.

(** [CLAUDE_3_SONNET], which takes the long extractions, accepts more
    tokens than [GPT35_TURBO], which no backend other than the embedding
    one exceeds in speed. *)
Lemma extraction_backends_roles :
  exists fast long,
    MODEL_CAPABILITIES !! ModelType.GPT35_TURBO = Some fast /\
    MODEL_CAPABILITIES !! ModelType.CLAUDE_3_SONNET = Some long /\
    context_window fast < context_window long /\
    forall m c,
      m <> ModelType.EMBEDDING ->
      MODEL_CAPABILITIES !! m = Some c ->
      PrimFloat.leb (speed c) (speed fast) = true.
Proof.
  do 2 eexists. split_and!; [reflexivity..|].
  intros m c Hne Hm.
  destruct m; try done; vm_compute in Hm; injection Hm as <-; reflexivity.
Qed.

(** *** [get_fallback_model] *)

Lemma fallback_of_table :
  fallback_of ModelType.GPT4 = Some ModelType.CLAUDE_3_OPUS /\
  fallback_of ModelType.GPT35_TURBO = Some ModelType.CLAUDE_3_SONNET /\
  fallback_of ModelType.CLAUDE_3_OPUS = Some ModelType.GPT4 /\
  fallback_of ModelType.CLAUDE_3_SONNET = Some ModelType.GPT35_TURBO /\
  fallback_of ModelType.GEMINI_PRO = Some ModelType.GPT4 /\
  fallback_of ModelType.EMBEDDING = None.
Proof. split_and!; reflexivity. Qed.

Lemma fallback_of_None (m : ModelType.t) :
  fallback_of m = None <-> m = ModelType.EMBEDDING.
Proof. split; [by destruct m | by intros ->]. Qed.

Lemma get_fallback_model_Some (self : MCPRouter.t) (m fb : ModelType.t) :
  (get_fallback_model self m).1 = Some fb <->
  fallback_of m = Some fb /\ is_model_healthy self fb = true.
Proof.
  unfold get_fallback_model.
  destruct (fallback_of m) as [fb'|]; simpl.
  - destruct (is_model_healthy self fb') eqn:Hh; simpl.
    + split; [by intros [= ->] | by intros [[= ->] _]].
    + split; [by intros [=] | intros [[= ->] Hc]; congruence].
  - split; [by intros [=] | by intros [[=] _]].
Qed.

(** C6: every backend but the embedding one has one designated
    alternate, another backend than itself, as the table of the code
    names it, and the embedding one has none; [get_fallback_model]
    returns the alternate of the failed backend exactly when that
    alternate is healthy and [None] otherwise, without looking at the
    alternate's own alternate, so never the failed backend itself; and
    its result is a function of the failed backend and of the health of
    the backends. *)
Theorem get_fallback_model_one_hop (self : MCPRouter.t) (primary_model : ModelType.t) :
  (fallback_of primary_model = None <-> primary_model = ModelType.EMBEDDING) /\
  (get_fallback_model self primary_model).1 =
    match fallback_of primary_model with
    | Some fallback => if is_model_healthy self fallback then Some fallback else None
    | None => None
    end /\
  (forall fallback,
     (get_fallback_model self primary_model).1 = Some fallback <->
     fallback_of primary_model = Some fallback /\
     is_model_healthy self fallback = true) /\
  (forall fallback,
     fallback_of primary_model = Some fallback ->
     is_model_healthy self fallback = false ->
     (get_fallback_model self primary_model).1 = None) /\
  (forall self' : MCPRouter.t,
     (forall m, is_model_healthy self' m = is_model_healthy self m) ->
     (get_fallback_model self' primary_model).1 =
     (get_fallback_model self primary_model).1) /\
  fallback_of primary_model =
    match primary_model with
    | ModelType.GPT4 => Some ModelType.CLAUDE_3_OPUS
    | ModelType.GPT35_TURBO => Some ModelType.CLAUDE_3_SONNET
    | ModelType.CLAUDE_3_OPUS => Some ModelType.GPT4
    | ModelType.CLAUDE_3_SONNET => Some ModelType.GPT35_TURBO
    | ModelType.GEMINI_PRO => Some ModelType.GPT4
    | ModelType.EMBEDDING => None
    end /\
  (forall fallback,
     fallback_of primary_model = Some fallback -> fallback <> primary_model) /\
  (forall fallback,
     (get_fallback_model self primary_model).1 = Some fallback ->
     fallback <> primary_model) /\
  get_fallback_model self primary_model =
    match fallback_of primary_model with
    | Some fallback =>
        if is_model_healthy self fallback
        then (Some fallback,
              [(INFO, "Fallback: " +:+ ModelType.value primary_model +:+
                      " -> " +:+ ModelType.value fallback)])
        else (None,
              [(ERROR, "Fallback " +:+ ModelType.value fallback +:+
                       " also unhealthy")])
    | None => (None, [])
    end.
Proof.
  assert (Hother : forall fallback,
            fallback_of primary_model = Some fallback -> fallback <> primary_model).
  { intros fb Hfb ->. by destruct primary_model. }
  split_and!.
  - apply fallback_of_None.
  - unfold get_fallback_model.
    destruct (fallback_of primary_model) as [fb|]; [|done].
    by destruct (is_model_healthy self fb).
  - intros fb. apply get_fallback_model_Some.
  - intros fb Hfb Hh. unfold get_fallback_model. by rewrite Hfb, Hh.
  - intros self' Heq. unfold get_fallback_model.
    destruct (fallback_of primary_model) as [fb|]; [|done].
    by rewrite Heq.
  - by destruct primary_model.
  - done.
  - intros fb [Hfb _]%get_fallback_model_Some. by apply Hother.
  - done.
Qed.

(** [GEMINI_PRO] falls back to [GPT4] only: with [GPT4] unhealthy the
    result is [None], although the alternate of [GPT4] is healthy. *)
Example get_fallback_model_no_chain :
  (get_fallback_model fresh_router ModelType.GEMINI_PRO).1 = Some ModelType.GPT4 /\
  (get_fallback_model (router_without ModelType.GPT4) ModelType.GEMINI_PRO).1 = None /\
  is_model_healthy (router_without ModelType.GPT4) ModelType.CLAUDE_3_OPUS = true /\
  (get_fallback_model fresh_router ModelType.EMBEDDING).1 = None.
Proof. split_and!; reflexivity. Qed.

(** *** [validate_routing_decision] *)

Lemma validate_routing_decision_exceeds (self : MCPRouter.t)
    (request : MCPRequest.t) (selected_model : ModelType.t)
    (caps : capabilities) (n : Z) :
  is_model_healthy self selected_model = true ->
  self_MODEL_CAPABILITIES self !! selected_model = Some caps ->
  0 <= context_window caps ->
  MCPRequest.max_tokens request = Some n ->
  n > context_window caps ->
  (validate_routing_decision self request selected_model).1 =
  (false, Some ("Request max_tokens (" +:+ pretty n +:+
                ") exceeds context window (" +:+
                pretty (context_window caps) +:+ ")")).
Proof.
  unfold validate_routing_decision. intros -> -> Hcw -> Hn. simpl.
  rewrite (proj2 (Z.gtb_gt _ _)) by lia.
  by rewrite (proj2 (Z.eqb_neq n 0)) by lia.
Qed.

(** On a router that uses the class matrix, every [max_tokens] above
    the context window of a healthy backend is refused. *)
Lemma validate_routing_decision_exceeds_class_matrix (self : MCPRouter.t)
    (request : MCPRequest.t) (selected_model : ModelType.t)
    (caps : capabilities) (n : Z) :
  self_MODEL_CAPABILITIES self = MODEL_CAPABILITIES ->
  is_model_healthy self selected_model = true ->
  MODEL_CAPABILITIES !! selected_model = Some caps ->
  MCPRequest.max_tokens request = Some n ->
  n > context_window caps ->
  (validate_routing_decision self request selected_model).1.1 = false.
Proof.
  intros Htable Hh Hcaps Hmax Hn.
  rewrite (validate_routing_decision_exceeds self request selected_model caps n);
    try done.
  - by rewrite Htable.
  - apply MODEL_CAPABILITIES_context_window_pos in Hcaps. lia.
Qed.

(** C7: [validate_routing_decision] fails for an unhealthy backend, for
    a backend without an entry in the capability matrix, and for a
    [max_tokens] above the context window of the backend; it succeeds
    when [max_tokens] equals the context window; and a task type outside
    the tasks of the backend only logs a warning: the verdict does not
    depend on the task type. *)
Theorem validate_routing_decision_spec (self : MCPRouter.t)
    (request : MCPRequest.t) (selected_model : ModelType.t) :
  (is_model_healthy self selected_model = false ->
   (validate_routing_decision self request selected_model).1 =
   (false, Some ("Selected model " +:+ ModelType.value selected_model +:+
                 " is unhealthy"))) /\
  (is_model_healthy self selected_model = true ->
   self_MODEL_CAPABILITIES self !! selected_model = None ->
   (validate_routing_decision self request selected_model).1 =
   (false, Some ("Unknown model " +:+ ModelType.value selected_model))) /\
  (forall caps n,
     is_model_healthy self selected_model = true ->
     self_MODEL_CAPABILITIES self !! selected_model = Some caps ->
     0 <= context_window caps ->
     MCPRequest.max_tokens request = Some n ->
     n > context_window caps ->
     (validate_routing_decision self request selected_model).1 =
     (false, Some ("Request max_tokens (" +:+ pretty n +:+
                   ") exceeds context window (" +:+
                   pretty (context_window caps) +:+ ")"))) /\
  (forall caps,
     is_model_healthy self selected_model = true ->
     self_MODEL_CAPABILITIES self !! selected_model = Some caps ->
     MCPRequest.max_tokens request = Some (context_window caps) ->
     (validate_routing_decision self request selected_model).1 = (true, None)) /\
  (forall caps,
     is_model_healthy self selected_model = true ->
     self_MODEL_CAPABILITIES self !! selected_model = Some caps ->
     MCPRequest.task_type request ∉ tasks caps ->
     (MCPRequest.max_tokens request = None \/
      exists n, MCPRequest.max_tokens request = Some n /\ n <= context_window caps) ->
     validate_routing_decision self request selected_model =
     ((true, None),
      [(WARNING, "Model " +:+ ModelType.value selected_model +:+
                 " may not be optimal for " +:+
                 TaskType.value (MCPRequest.task_type request))])) /\
  (forall request' : MCPRequest.t,
     MCPRequest.max_tokens request' = MCPRequest.max_tokens request ->
     (validate_routing_decision self request' selected_model).1 =
     (validate_routing_decision self request selected_model).1).
Proof.
  split_and!;
    try (intros caps n; apply validate_routing_decision_exceeds);
    unfold validate_routing_decision.
  - by intros ->.
  - by intros -> ->.
  - intros caps -> -> ->. simpl.
    by rewrite Z.gtb_ltb, Z.ltb_irrefl, andb_false_r.
  - intros caps -> -> Hin Hmax. simpl.
    rewrite bool_decide_eq_false_2 by done. simpl.
    destruct Hmax as [->|(n & -> & Hn)]; simpl; [done|].
    rewrite Z.gtb_ltb, (proj2 (Z.ltb_ge _ _)) by lia.
    by rewrite andb_false_r.
  - intros request' ->.
    destruct (is_model_healthy self selected_model); simpl; [|done].
    destruct (self_MODEL_CAPABILITIES self !! selected_model); [|done].
    by destruct (_ && _).
Qed.

(** The cases of [validate_routing_decision] on the class matrix, and
    on a router whose matrix lacks the selected backend. *)
Example validate_routing_decision_cases :
  (validate_routing_decision (router_without ModelType.GPT4)
     (request_of "hello" TaskType.GENERAL None false false None) ModelType.GPT4).1
  = (false, Some "Selected model gpt-4 is unhealthy") /\
  (validate_routing_decision
     {| self_MODEL_CAPABILITIES := delete ModelType.GEMINI_PRO MODEL_CAPABILITIES;
        model_health := model_health fresh_router |}
     (request_of "hello" TaskType.GENERAL None false false None)
     ModelType.GEMINI_PRO).1
  = (false, Some "Unknown model gemini-pro") /\
  (validate_routing_decision fresh_router
     (request_of "hello" TaskType.GENERAL None false false (Some 16385))
     ModelType.GPT35_TURBO).1
  = (false, Some "Request max_tokens (16385) exceeds context window (16384)") /\
  (validate_routing_decision fresh_router
     (request_of "hello" TaskType.GENERAL None false false (Some 16384))
     ModelType.GPT35_TURBO).1
  = (true, None) /\
  validate_routing_decision fresh_router
    (request_of "Write a poem" TaskType.CREATIVE None false false (Some 100))
    ModelType.GPT35_TURBO
  = ((true, None),
     [(WARNING, "Model gpt-3.5-turbo may not be optimal for creative")]).
Proof. split_and!; vm_compute; reflexivity. Qed.

End RouterProperties.

(** * Further properties of the context *)

Module ContextProperties.
Import MCPContext.

Lemma slice_from_last {A : Type} (n : Z) (l : list A) :
  0 < n -> slice_from (- n) l = drop (length l - Z.to_nat n) l.
Proof.
  intros Hn. unfold slice_from.
  rewrite (proj2 (Z.ltb_lt _ _)) by lia.
  f_equal. lia.
Qed.

Lemma slice_from_nonneg {A : Type} (k : Z) (l : list A) :
  0 <= k -> slice_from k l = drop (Z.to_nat k) l.
Proof.
  intros Hk. unfold slice_from.
  rewrite (proj2 (Z.ltb_ge _ _)) by lia.
  destruct (Z.le_gt_cases k (Z.of_nat (length l))).
  - by rewrite Z.min_l by lia.
  - rewrite Z.min_r, Nat2Z.id by lia.
    rewrite !drop_ge; [done | lia | lia].
Qed.

(** X1: the shared memory behaves as a dictionary: what [set_memory]
    stores under a key is what [get_memory] reads back under that key,
    whatever the default; the other keys read as before; the last value
    written under a key wins; and after [clear_memory] every key reads
    as its default. *)
Theorem get_memory_set_memory (self : MCPContext.t) (key key' : string)
    (value value' default : pyval) :
  get_memory (set_memory self key value) key' default =
    (if decide (key = key') then value else get_memory self key' default) /\
  set_memory (set_memory self key value) key value' = set_memory self key value' /\
  get_memory (clear_memory (set_memory self key value)) key' default = default.
Proof.
  unfold get_memory, set_memory, clear_memory; simpl. split_and!.
  - rewrite lookup_insert. by case_decide.
  - by rewrite insert_insert_eq.
  - by rewrite lookup_empty.
Qed.



(** X3: for a positive [last_n], [get_history] returns the last
    [last_n] messages in their order, and the whole history when it
    holds fewer. *)
Theorem get_history_last (self : MCPContext.t) (n : Z) :
  0 < n ->
  get_history self (Some n) =
    drop (length (history self) - Z.to_nat n) (history self) /\
  Z.of_nat (length (get_history self (Some n))) =
    Z.min n (Z.of_nat (length (history self))).
Proof.
  intros Hn. unfold get_history, truthy_int.
  rewrite (proj2 (Z.eqb_neq n 0)) by lia. simpl.
  rewrite slice_from_last by done.
  split; [done|]. rewrite length_drop. lia.
Qed.

Lemma get_history_last_witness :
  get_history
    (add_message (add_message (add_message (new "c0a8-0001")
       noon "user" "one" None) noon "assistant" "two" (Some "gpt-4"))
       noon "user" "three" None)
    (Some 2)
  = [[("role", PStr "assistant"); ("content", PStr "two");
      ("model", PStr "gpt-4"); ("timestamp", PStr "2024-05-17T12:00:00")];
     [("role", PStr "user"); ("content", PStr "three");
      ("model", PNone); ("timestamp", PStr "2024-05-17T12:00:00")]].
Proof.
  apply (proj1 (get_history_last
           (add_message (add_message (add_message (new "c0a8-0001")
              noon "user" "one" None) noon "assistant" "two" (Some "gpt-4"))
              noon "user" "three" None)
           2 eq_refl)).
Defined.

(** X4: [get_history(0)] is not the empty list but the whole history,
    as [get_history()] is; and a negative [last_n = -k] returns the
    history without its first [k] messages. *)
Theorem get_history_edges (self : MCPContext.t) :
  get_history self (Some 0) = history self /\
  get_history self None = history self /\
  (forall k, 0 < k ->
     get_history self (Some (- k)) = drop (Z.to_nat k) (history self)).
Proof.
  split_and!; [done..|].
  intros k Hk. unfold get_history, truthy_int.
  rewrite (proj2 (Z.eqb_neq (- k) 0)) by lia. simpl.
  rewrite Z.opp_involutive. apply slice_from_nonneg. lia.
Qed.

(** X5: a message added with [add_message] is the one [get_history(1)]
    returns, with the role, the content and the model given and the
    ISO-8601 text of the time; the history is one message longer. *)
Theorem get_history_add_message (self : MCPContext.t) (now : datetime)
    (role content : string) (model : option string) :
  get_history (add_message self now role content model) (Some 1) =
    [[("role", PStr role); ("content", PStr content);
      ("model", PStr_or_None model); ("timestamp", PStr (isoformat now))]] /\
  length (history (add_message self now role content model)) =
    S (length (history self)) /\
  shared_memory (add_message self now role content model) = shared_memory self.
Proof.
  split_and!.
  - unfold get_history, truthy_int. simpl.
    rewrite slice_from_last by lia. simpl.
    rewrite length_app. simpl.
    replace (length (history self) + 1 - Z.to_nat 1)%nat
      with (length (history self) + 0)%nat by lia.
    by rewrite drop_app_length'.
  - simpl. rewrite length_app. simpl. lia.
  - done.
Qed.

End ContextProperties.

(** * Further properties of the envelope *)

Module EnvelopeProperties.
Import MCPProtocolValidator.

Lemma validate_request_post_init (uuid : string) (fields : MCPRequest.t) :
  validate_request (MCPRequest.post_init uuid fields).1 = validate_request fields.
Proof. done. Qed.

(** The verdict of [validate_request] is [(True, None)] or [False] with
    a message. *)
Lemma validate_request_verdict (request : MCPRequest.t) :
  validate_request request = (true, None) \/
  exists reason, validate_request request = (false, Some reason).
Proof. unfold validate_request. repeat case_match; eauto. Qed.

Lemma validate_response_verdict (response : MCPResponse.t) :
  validate_response response = (true, None) \/
  exists reason, validate_response response = (false, Some reason).
Proof. unfold validate_response. repeat case_match; eauto. Qed.

(** What a request that [validate_request] accepts satisfies. *)
Lemma valid_request_inv (request : MCPRequest.t) :
  valid_request request ->
  (MCPRequest.content request <> "" \/
   MCPRequest.task_type request = TaskType.EMBEDDING) /\
  (forall n, MCPRequest.max_tokens request = Some n -> 0 <= n) /\
  PrimFloat.leb 0 (MCPRequest.temperature request) = true /\
  PrimFloat.leb (MCPRequest.temperature request) 2.0 = true /\
  0 <= MCPRequest.cache_ttl request.
Proof.
  unfold valid_request. rewrite ProtocolProperties.validate_request_rules.
  destruct (negb _ && negb _) eqn:Hc; [discriminate|].
  destruct (match MCPRequest.max_tokens request with
            | Some n => n <? 0 | None => false end) eqn:Hm; [discriminate|].
  destruct (PrimFloat.leb 0 _ && PrimFloat.leb _ 2) eqn:Ht; [|discriminate].
  destruct (_ <? 0) eqn:Httl; [discriminate|]. intros _.
  apply andb_prop in Ht as [Ht1 Ht2].
  split_and!; [|  |done|done|by apply Z.ltb_ge].
  - apply andb_false_iff in Hc as [Hc|Hc].
    + left. apply negb_false_iff in Hc.
      by destruct (MCPRequest.content request).
    + right. apply negb_false_iff in Hc. by apply bool_decide_eq_true in Hc.
  - intros n Hn. rewrite Hn in Hm. by apply Z.ltb_ge.
Qed.

(** X6: after [__post_init__] a request that uses a context has one: a
    context given to the constructor is kept, a missing one is replaced
    by a fresh context exactly when [use_context] is set. The other
    fields are left alone, so the transport dictionary and the verdict
    of [validate_request] are the same, and a second run changes
    nothing. *)
Theorem post_init_context (uuid uuid' : string) (fields : MCPRequest.t) :
  (MCPRequest.use_context (MCPRequest.post_init uuid fields).1 = true ->
   is_Some (MCPRequest.context (MCPRequest.post_init uuid fields).1)) /\
  (forall c,
     MCPRequest.context fields = Some c ->
     MCPRequest.context (MCPRequest.post_init uuid fields).1 = Some c) /\
  (MCPRequest.context fields = None ->
   MCPRequest.context (MCPRequest.post_init uuid fields).1 =
   if MCPRequest.use_context fields then Some (MCPContext.new uuid) else None) /\
  MCPRequest.use_context (MCPRequest.post_init uuid fields).1 =
    MCPRequest.use_context fields /\
  MCPRequest.to_dict (MCPRequest.post_init uuid fields).1 =
    MCPRequest.to_dict fields /\
  validate_request (MCPRequest.post_init uuid fields).1 = validate_request fields /\
  (MCPRequest.post_init uuid' (MCPRequest.post_init uuid fields).1).1 =
    (MCPRequest.post_init uuid fields).1.
Proof.
  unfold MCPRequest.post_init; simpl. split_and!; try done.
  - intros Huse. rewrite Huse. destruct (MCPRequest.context fields); eauto.
  - by intros c ->.
  - by intros ->.
  - destruct (MCPRequest.context fields) as [c|]; [done|].
    by destruct (MCPRequest.use_context fields).
Qed.

(** X7: [create_request] returns a request exactly when its arguments
    pass [validate_request], and then the request after
    [__post_init__]; otherwise it raises, and the message of the error,
    which is also logged, is the reason of the validator after
    [Invalid MCP request: ]. *)
Theorem create_request_outcome (uuid : string) (fields : MCPRequest.t) :
  (valid_request fields ->
   (create_request uuid fields).1 = inl (MCPRequest.post_init uuid fields).1) /\
  (forall reason,
     validate_request fields = (false, Some reason) ->
     (create_request uuid fields).1 = inr ("Invalid MCP request: " +:+ reason) /\
     (ERROR, "Invalid MCP request: " +:+ reason) ∈ (create_request uuid fields).2) /\
  (forall request,
     (create_request uuid fields).1 = inl request -> valid_request fields) /\
  (forall message,
     (create_request uuid fields).1 = inr message ->
     exists reason, validate_request fields = (false, Some reason)).
Proof.
  unfold create_request, valid_request.
  destruct (MCPRequest.post_init uuid fields) as [request log1] eqn:Hpost.
  replace request with (MCPRequest.post_init uuid fields).1 by by rewrite Hpost.
  rewrite validate_request_post_init.
  destruct (validate_request_verdict fields) as [Hv|[reason Hv]]; rewrite Hv; simpl.
  - split_and!; [done| |done|]; [intros ? [=] | intros ? [=]].
  - split_and!.
    + intros [=].
    + intros ? [= <-]. split; [done|]. set_solver+.
    + intros ? [=].
    + eauto.
Qed.

(** X8: every request [create_request] returns satisfies the
    invariants of a request, as the code checks them: the content is
    not empty unless the task is an embedding, [max_tokens] when given
    is not negative, the temperature is within [0, 2.0], [cache_ttl] is
    not negative; and it has a context when it uses one. *)
Theorem create_request_invariants (uuid : string) (fields request : MCPRequest.t) :
  (create_request uuid fields).1 = inl request ->
  (MCPRequest.content request <> "" \/
   MCPRequest.task_type request = TaskType.EMBEDDING) /\
  (forall n, MCPRequest.max_tokens request = Some n -> 0 <= n) /\
  PrimFloat.leb 0 (MCPRequest.temperature request) = true /\
  PrimFloat.leb (MCPRequest.temperature request) 2.0 = true /\
  0 <= MCPRequest.cache_ttl request /\
  (MCPRequest.use_context request = true -> is_Some (MCPRequest.context request)).
Proof.
  unfold create_request.
  destruct (MCPRequest.post_init uuid fields) as [request' log1] eqn:Hpost.
  destruct (validate_request request') as [is_valid error] eqn:Hv.
  destruct is_valid; simpl; [|discriminate]. intros [= <-].
  assert (Hvalid : valid_request request').
  { unfold valid_request.
    destruct (validate_request_verdict request') as [?|[? ?]]; congruence. }
  destruct (valid_request_inv request' Hvalid) as (H1 & H2 & H3 & H4 & H5).
  split_and!; try done.
  replace request' with (MCPRequest.post_init uuid fields).1 by by rewrite Hpost.
  unfold MCPRequest.post_init; simpl. intros ->.
  destruct (MCPRequest.context fields); eauto.
Qed.

Lemma create_request_invariants_witness :
  (MCPRequest.content (request_of "" TaskType.EMBEDDING None false false (Some 0)) <> "" \/
   MCPRequest.task_type (request_of "" TaskType.EMBEDDING None false false (Some 0))
   = TaskType.EMBEDDING) /\
  (forall n,
     MCPRequest.max_tokens (request_of "" TaskType.EMBEDDING None false false (Some 0))
     = Some n -> 0 <= n) /\
  PrimFloat.leb 0
    (MCPRequest.temperature (request_of "" TaskType.EMBEDDING None false false (Some 0)))
  = true /\
  PrimFloat.leb
    (MCPRequest.temperature (request_of "" TaskType.EMBEDDING None false false (Some 0)))
    2.0
  = true /\
  0 <= MCPRequest.cache_ttl (request_of "" TaskType.EMBEDDING None false false (Some 0)) /\
  (MCPRequest.use_context (request_of "" TaskType.EMBEDDING None false false (Some 0))
   = true ->
   is_Some
     (MCPRequest.context (request_of "" TaskType.EMBEDDING None false false (Some 0)))).
Proof.
  apply (create_request_invariants "c0a8-0001"
           (request_fields "" TaskType.EMBEDDING None false false (Some 0))
           (request_of "" TaskType.EMBEDDING None false false (Some 0))).
  reflexivity.
Defined.

(** X9: every response [create_response] returns is the one described
    by its arguments and satisfies the invariants of a response: a
    failed response carries an error text that is not empty, the
    latency is not below zero and [tokens_used] is not negative. *)
Theorem create_response_invariants (fields response : MCPResponse.t) :
  create_response fields = inl response ->
  response = fields /\
  (MCPResponse.success response = false ->
   exists text, MCPResponse.error response = Some text /\ text <> "") /\
  PrimFloat.ltb (MCPResponse.latency_ms response) 0 = false /\
  0 <= MCPResponse.tokens_used response.
Proof.
  unfold create_response, validate_response.
  destruct (negb (MCPResponse.success fields) && _) eqn:Herr; [discriminate|].
  destruct (PrimFloat.ltb _ 0) eqn:Hlat; [discriminate|].
  destruct (_ <? 0) eqn:Htok; [discriminate|]. simpl. intros [= <-].
  split_and!; [done| |done|by apply Z.ltb_ge].
  intros Hs. rewrite Hs in Herr. simpl in Herr.
  apply negb_false_iff in Herr.
  destruct (MCPResponse.error fields) as [text|]; [|discriminate].
  exists text. split; [done|]. by intros ->.
Qed.

Lemma create_response_invariants_witness :
  failed_response_of ModelType.GPT4 250.5 (Some "upstream timeout")
    (Some ModelType.CLAUDE_3_OPUS)
  = failed_response_of ModelType.GPT4 250.5 (Some "upstream timeout")
      (Some ModelType.CLAUDE_3_OPUS) /\
  (MCPResponse.success
     (failed_response_of ModelType.GPT4 250.5 (Some "upstream timeout")
        (Some ModelType.CLAUDE_3_OPUS)) = false ->
   exists text,
     MCPResponse.error
       (failed_response_of ModelType.GPT4 250.5 (Some "upstream timeout")
          (Some ModelType.CLAUDE_3_OPUS)) = Some text /\
     text <> "") /\
  PrimFloat.ltb
    (MCPResponse.latency_ms
       (failed_response_of ModelType.GPT4 250.5 (Some "upstream timeout")
          (Some ModelType.CLAUDE_3_OPUS))) 0
  = false /\
  0 <= MCPResponse.tokens_used
         (failed_response_of ModelType.GPT4 250.5 (Some "upstream timeout")
            (Some ModelType.CLAUDE_3_OPUS)).
Proof.
  apply (create_response_invariants
           (failed_response_of ModelType.GPT4 250.5 (Some "upstream timeout")
              (Some ModelType.CLAUDE_3_OPUS))
           (failed_response_of ModelType.GPT4 250.5 (Some "upstream timeout")
              (Some ModelType.CLAUDE_3_OPUS))).
  vm_compute. reflexivity.
Defined.

(** A failed response is returned when it carries an error text, and
    refused when the text is missing or empty or the latency is below
    zero. *)
Example create_response_failed_cases :
  create_response
    (failed_response_of ModelType.GPT4 250.5 (Some "upstream timeout")
       (Some ModelType.CLAUDE_3_OPUS))
  = inl (failed_response_of ModelType.GPT4 250.5 (Some "upstream timeout")
           (Some ModelType.CLAUDE_3_OPUS)) /\
  create_response (failed_response_of ModelType.GPT4 250.5 None None)
  = inr "Invalid MCP response: Failed response must include error message" /\
  create_response (failed_response_of ModelType.GPT4 250.5 (Some "") None)
  = inr "Invalid MCP response: Failed response must include error message" /\
  create_response
    (failed_response_of ModelType.GPT4 (-1.0) (Some "upstream timeout") None)
  = inr "Invalid MCP response: latency_ms cannot be negative".
Proof. split_and!; vm_compute; reflexivity. Qed.

(** X10: [create_response] raises exactly when [validate_response]
    rejects its arguments, that is for a failed response whose error is
    [None] or the empty text, for a latency below zero, or for a
    negative [tokens_used]; the message of the error is the first of
    these reasons after [Invalid MCP response: ]. *)
Theorem create_response_outcome (fields : MCPResponse.t) :
  (MCPResponse.success fields = false ->
   MCPResponse.error fields = None \/ MCPResponse.error fields = Some "" ->
   create_response fields =
   inr "Invalid MCP response: Failed response must include error message") /\
  (MCPResponse.success fields = true \/
   (exists text, MCPResponse.error fields = Some text /\ text <> "") ->
   PrimFloat.ltb (MCPResponse.latency_ms fields) 0 = true ->
   create_response fields = inr "Invalid MCP response: latency_ms cannot be negative") /\
  (MCPResponse.success fields = true \/
   (exists text, MCPResponse.error fields = Some text /\ text <> "") ->
   PrimFloat.ltb (MCPResponse.latency_ms fields) 0 = false ->
   MCPResponse.tokens_used fields < 0 ->
   create_response fields = inr "Invalid MCP response: tokens_used cannot be negative") /\
  (MCPResponse.success fields = true \/
   (exists text, MCPResponse.error fields = Some text /\ text <> "") ->
   PrimFloat.ltb (MCPResponse.latency_ms fields) 0 = false ->
   0 <= MCPResponse.tokens_used fields ->
   create_response fields = inl fields).
Proof.
  assert (Hok : MCPResponse.success fields = true \/
                (exists text, MCPResponse.error fields = Some text /\ text <> "") ->
                negb (MCPResponse.success fields) &&
                negb (truthy_opt_str (MCPResponse.error fields)) = false).
  { intros [->|(text & -> & Hne)]; [done|].
    destruct text; [done|]. simpl. apply andb_false_r. }
  unfold create_response, validate_response. split_and!.
  - by intros -> [->| ->].
  - intros ->%Hok ->. done.
  - intros ->%Hok -> Htok. by rewrite (proj2 (Z.ltb_lt _ _)) by done.
  - intros ->%Hok -> Htok. by rewrite (proj2 (Z.ltb_ge _ _)) by done.
Qed.

(** X11: [MCPMessage.to_dict] emits every field of a message: two
    messages with the same dictionary agree on all fields, the
    timestamp as its ISO-8601 text. *)
Theorem message_to_dict_emitted (a b : MCPMessage.t) :
  MCPMessage.to_dict a = MCPMessage.to_dict b ->
  MCPMessage.message_id a = MCPMessage.message_id b /\
  MCPMessage.message_type a = MCPMessage.message_type b /\
  MCPMessage.payload a = MCPMessage.payload b /\
  isoformat (MCPMessage.timestamp a) = isoformat (MCPMessage.timestamp b) /\
  MCPMessage.source a = MCPMessage.source b /\
  MCPMessage.destination a = MCPMessage.destination b.
Proof.
  unfold MCPMessage.to_dict. intros H.
  injection H as Hid Htype Hpayload Hts Hsrc Hdst.
  split_and!; try done.
  - by destruct (MCPMessage.message_type a), (MCPMessage.message_type b).
  - by destruct (MCPMessage.source a), (MCPMessage.source b); simplify_eq/=.
  - by destruct (MCPMessage.destination a), (MCPMessage.destination b);
      simplify_eq/=.
Qed.

Lemma message_to_dict_emitted_witness :
  MCPMessage.message_id
    {| MCPMessage.message_id := "5b1d-0001";
       MCPMessage.message_type := MCPMessageType.HEALTH_CHECK;
       MCPMessage.payload := [("model", PStr "gpt-4")];
       MCPMessage.timestamp := noon;
       MCPMessage.source := Some "router";
       MCPMessage.destination := None |}
  = "5b1d-0001" /\
  MCPMessage.message_type
    {| MCPMessage.message_id := "5b1d-0001";
       MCPMessage.message_type := MCPMessageType.HEALTH_CHECK;
       MCPMessage.payload := [("model", PStr "gpt-4")];
       MCPMessage.timestamp := noon;
       MCPMessage.source := Some "router";
       MCPMessage.destination := None |}
  = MCPMessageType.HEALTH_CHECK /\
  [("model", PStr "gpt-4")] = [("model", PStr "gpt-4")] /\
  isoformat noon = isoformat noon /\
  Some "router" = Some "router" /\
  @None string = None.
Proof.
  apply (message_to_dict_emitted
           {| MCPMessage.message_id := "5b1d-0001";
              MCPMessage.message_type := MCPMessageType.HEALTH_CHECK;
              MCPMessage.payload := [("model", PStr "gpt-4")];
              MCPMessage.timestamp := noon;
              MCPMessage.source := Some "router";
              MCPMessage.destination := None |}
           {| MCPMessage.message_id := "5b1d-0001";
              MCPMessage.message_type := MCPMessageType.HEALTH_CHECK;
              MCPMessage.payload := [("model", PStr "gpt-4")];
              MCPMessage.timestamp := noon;
              MCPMessage.source := Some "router";
              MCPMessage.destination := None |}).
  reflexivity.
Defined.

End EnvelopeProperties.

(** * Further properties of the health registry *)

Module RegistryProperties.
Import MCPRouter.

#[local] Existing Instance ProtocolProperties.ModelType_value_inj.

Lemma is_model_healthy_lookup (self : MCPRouter.t) (m : ModelType.t) :
  is_model_healthy self m = true <-> model_health self !! m = Some true.
Proof.
  unfold is_model_healthy.
  destruct (model_health self !! m) as [[]|]; naive_solver.
Qed.

(** The number of members of [ModelType] with a property, member by
    member. *)
Lemma length_filter_members (P : ModelType.t -> Prop) `{!forall m, Decision (P m)} :
  length (filter P ModelType.members) =
  ((if decide (P ModelType.GPT4) then 1 else 0) +
   (if decide (P ModelType.GPT35_TURBO) then 1 else 0) +
   (if decide (P ModelType.CLAUDE_3_OPUS) then 1 else 0) +
   (if decide (P ModelType.CLAUDE_3_SONNET) then 1 else 0) +
   (if decide (P ModelType.GEMINI_PRO) then 1 else 0) +
   (if decide (P ModelType.EMBEDDING) then 1 else 0))%nat.
Proof.
  unfold ModelType.members. rewrite !filter_cons, filter_nil.
  repeat case_decide; simpl; lia.
Qed.

(** The entries of a health dictionary whose flag is [True] are as many
    as the members of [ModelType] that read as healthy. *)
Lemma healthy_entries_count (capabilities_table : gmap ModelType.t capabilities)
    (health : gmap ModelType.t bool) :
  size (filter (fun entry : ModelType.t * bool => entry.2 = true) health) =
  length (filter
            (fun m => is_model_healthy
                        {| self_MODEL_CAPABILITIES := capabilities_table;
                           model_health := health |} m = true)
            ModelType.members).
Proof.
  rewrite length_filter_members. unfold is_model_healthy; simpl.
  induction health as [|i x m Hi IH] using map_ind.
  - rewrite map_filter_empty, map_size_empty.
    rewrite !lookup_empty. by repeat case_decide.
  - destruct x.
    + rewrite map_filter_insert_True by reflexivity.
      rewrite map_size_insert_None
        by (apply map_lookup_filter_None; by left).
      rewrite IH. clear IH.
      destruct i;
        rewrite lookup_insert_eq, !lookup_insert_ne by done;
        rewrite Hi; simpl;
        repeat case_decide; try done; lia.
    + rewrite map_filter_insert_not' by (simpl; congruence).
      rewrite IH. clear IH.
      destruct i;
        rewrite lookup_insert_eq, !lookup_insert_ne by done;
        rewrite Hi; simpl;
        repeat case_decide; try done; lia.
Qed.

(** Every reachable router uses the class matrix and has a flag for
    each of the six members of [ModelType]. *)
Lemma reachable_inv (self : MCPRouter.t) :
  reachable self ->
  self_MODEL_CAPABILITIES self = MODEL_CAPABILITIES /\
  (forall m, is_Some (model_health self !! m)) /\
  size (model_health self) = 6%nat.
Proof.
  induction 1 as [|self model _ (Htable & Hdom & Hsize)
                  |self model _ (Htable & Hdom & Hsize)]; simpl.
  - split_and!; [done| |done]. intros []; vm_compute; eauto.
  - split_and!; [done| |].
    + intros m. rewrite lookup_insert. case_decide; eauto.
    + by rewrite map_size_insert_Some.
  - split_and!; [done| |].
    + intros m. rewrite lookup_insert. case_decide; eauto.
    + by rewrite map_size_insert_Some.
Qed.

(** X12: marking a model changes the health of that model and of no
    other: after [mark_model_unhealthy] it reads as unhealthy, after
    [mark_model_healthy] as healthy, whatever it was before, also for a
    model the dictionary did not hold; the capability matrix is not
    touched. *)
Theorem mark_model_health (self : MCPRouter.t) (model other : ModelType.t) :
  is_model_healthy (mark_model_unhealthy self model).1 other =
    (if decide (model = other) then false else is_model_healthy self other) /\
  is_model_healthy (mark_model_healthy self model).1 other =
    (if decide (model = other) then true else is_model_healthy self other) /\
  self_MODEL_CAPABILITIES (mark_model_unhealthy self model).1 =
    self_MODEL_CAPABILITIES self /\
  self_MODEL_CAPABILITIES (mark_model_healthy self model).1 =
    self_MODEL_CAPABILITIES self.
Proof.
  split_and!; [|  |done|done].
  - apply RouterProperties.is_model_healthy_mark_unhealthy.
  - apply RouterProperties.is_model_healthy_mark_healthy.
Qed.

(** X13: the marks are idempotent and the last one on a model wins;
    marks on different models commute; and marking a model unhealthy
    and healthy again gives back the very router, provided the model
    was recorded as healthy. *)
Theorem mark_model_compose (self : MCPRouter.t) (model other : ModelType.t) :
  (mark_model_unhealthy (mark_model_unhealthy self model).1 model).1 =
    (mark_model_unhealthy self model).1 /\
  (mark_model_healthy (mark_model_unhealthy self model).1 model).1 =
    (mark_model_healthy self model).1 /\
  (mark_model_unhealthy (mark_model_healthy self model).1 model).1 =
    (mark_model_unhealthy self model).1 /\
  (model <> other ->
   (mark_model_unhealthy (mark_model_healthy self model).1 other).1 =
   (mark_model_healthy (mark_model_unhealthy self other).1 model).1) /\
  (model_health self !! model = Some true ->
   (mark_model_healthy (mark_model_unhealthy self model).1 model).1 = self) /\
  (mark_model_healthy (mark_model_healthy self model).1 model).1 =
    (mark_model_healthy self model).1 /\
  (model <> other ->
   (mark_model_unhealthy (mark_model_unhealthy self model).1 other).1 =
   (mark_model_unhealthy (mark_model_unhealthy self other).1 model).1) /\
  (model <> other ->
   (mark_model_healthy (mark_model_healthy self model).1 other).1 =
   (mark_model_healthy (mark_model_healthy self other).1 model).1).
Proof.
  unfold mark_model_unhealthy, mark_model_healthy; simpl.
  split_and!.
  - by rewrite insert_insert_eq.
  - by rewrite insert_insert_eq.
  - by rewrite insert_insert_eq.
  - intros Hne. by rewrite insert_insert_ne.
  - intros Hm. rewrite insert_insert_eq, insert_id by done. by destruct self.
  - by rewrite insert_insert_eq.
  - intros Hne. by rewrite insert_insert_ne.
  - intros Hne. by rewrite insert_insert_ne.
Qed.

(** X14: every router a program can reach from [MCPRouter()] by marking
    models holds a flag for each of the six members of [ModelType] and
    uses the class matrix, so that [get_model_stats] reports six models
    in total, as many healthy ones as [is_model_healthy] accepts, and
    as many unhealthy ones as it refuses. *)
Theorem reachable_stats (self : MCPRouter.t) :
  reachable self ->
  self_MODEL_CAPABILITIES self = MODEL_CAPABILITIES /\
  (forall m, is_Some (model_health self !! m)) /\
  total_models (get_model_stats self) = 6 /\
  healthy_models (get_model_stats self) =
    Z.of_nat (length (filter (fun m => is_model_healthy self m = true)
                        ModelType.members)) /\
  unhealthy_models (get_model_stats self) =
    Z.of_nat (length (filter (fun m => is_model_healthy self m = false)
                        ModelType.members)).
Proof.
  intros (Htable & Hdom & Hsize)%reachable_inv.
  assert (Hcount := healthy_entries_count
                      (self_MODEL_CAPABILITIES self) (model_health self)).
  replace {| self_MODEL_CAPABILITIES := self_MODEL_CAPABILITIES self;
             model_health := model_health self |} with self in Hcount
    by by destruct self.
  unfold get_model_stats; simpl. rewrite Hsize, Hcount.
  split_and!; [done..|].
  rewrite !length_filter_members.
  destruct (is_model_healthy self ModelType.GPT4),
    (is_model_healthy self ModelType.GPT35_TURBO),
    (is_model_healthy self ModelType.CLAUDE_3_OPUS),
    (is_model_healthy self ModelType.CLAUDE_3_SONNET),
    (is_model_healthy self ModelType.GEMINI_PRO),
    (is_model_healthy self ModelType.EMBEDDING); reflexivity.
Qed.

Lemma reachable_stats_witness :
  self_MODEL_CAPABILITIES (router_without ModelType.GPT4) = MODEL_CAPABILITIES /\
  (forall m, is_Some (model_health (router_without ModelType.GPT4) !! m)) /\
  total_models (get_model_stats (router_without ModelType.GPT4)) = 6 /\
  healthy_models (get_model_stats (router_without ModelType.GPT4)) =
    Z.of_nat (length (filter
                        (fun m => is_model_healthy (router_without ModelType.GPT4) m = true)
                        ModelType.members)) /\
  unhealthy_models (get_model_stats (router_without ModelType.GPT4)) =
    Z.of_nat (length (filter
                        (fun m => is_model_healthy (router_without ModelType.GPT4) m = false)
                        ModelType.members)).
Proof.
  apply (reachable_stats (router_without ModelType.GPT4)).
  apply reachable_mark_unhealthy, reachable_init.
Defined.

(** X15: in every state of the health dictionary the counts of
    [get_model_stats] add up: the healthy and the unhealthy models
    together are all the models, neither count is negative, and the
    healthy count is the number of members of [ModelType] that
    [is_model_healthy] accepts. *)
Theorem get_model_stats_counts (self : MCPRouter.t) :
  healthy_models (get_model_stats self) + unhealthy_models (get_model_stats self) =
    total_models (get_model_stats self) /\
  0 <= healthy_models (get_model_stats self) /\
  0 <= unhealthy_models (get_model_stats self) /\
  healthy_models (get_model_stats self) =
    Z.of_nat (length (filter (fun m => is_model_healthy self m = true)
                        ModelType.members)).
Proof.
  assert (Hle := map_subseteq_size _ _
                   (map_filter_subseteq
                      (fun entry : ModelType.t * bool => entry.2 = true)
                      (model_health self))).
  assert (Hcount := healthy_entries_count
                      (self_MODEL_CAPABILITIES self) (model_health self)).
  replace {| self_MODEL_CAPABILITIES := self_MODEL_CAPABILITIES self;
             model_health := model_health self |} with self in Hcount
    by by destruct self.
  unfold get_model_stats; simpl. split_and!; lia.
Qed.

(** X16: [model_status] has one line per model of the health
    dictionary, under the string value of the model: [healthy] when the
    flag is [True], [unhealthy] when it is [False], and no line for a
    model the dictionary does not hold or for any other key. *)
Theorem model_status_lookup (self : MCPRouter.t) :
  (forall m,
     model_status (get_model_stats self) !! ModelType.value m =
     (fun healthy : bool => if healthy then "healthy" else "unhealthy")
       <$> model_health self !! m) /\
  (forall key,
     is_Some (model_status (get_model_stats self) !! key) ->
     exists m, key = ModelType.value m /\ is_Some (model_health self !! m)).
Proof.
  unfold get_model_stats; simpl.
  assert (Hnodup :
    NoDup ((fun entry : ModelType.t * bool =>
              (ModelType.value entry.1,
               if entry.2 then "healthy" else "unhealthy"))
           <$> map_to_list (model_health self)).*1).
  { rewrite <- list_fmap_compose.
    change (NoDup (ModelType.value ∘ fst <$> map_to_list (model_health self))).
    rewrite list_fmap_compose.
    apply (NoDup_fmap_2 _).
    apply NoDup_fst_map_to_list. }
  split.
  - intros m. destruct (model_health self !! m) as [healthy|] eqn:Hm; simpl.
    + apply elem_of_list_to_map_1; [done|].
      apply list_elem_of_fmap. exists (m, healthy).
      split; [done|]. by apply elem_of_map_to_list.
    + apply not_elem_of_list_to_map_1. rewrite <- list_fmap_compose.
      intros ([m' healthy] & Heq & Hin)%list_elem_of_fmap. simpl in Heq.
      apply (inj ModelType.value) in Heq as <-.
      apply elem_of_map_to_list in Hin. congruence.
  - intros key [status Hkey].
    apply elem_of_list_to_map_2 in Hkey.
    apply list_elem_of_fmap in Hkey as ([m healthy] & [= -> ->] & Hin).
    apply elem_of_map_to_list in Hin. eauto.
Qed.

End RegistryProperties.

(** * Further properties of the routing engine *)

Module RoutingProperties.
Import MCPRouter.

Lemma select_model_no_model (self : MCPRouter.t) (request : MCPRequest.t) :
  MCPRequest.model request = None ->
  select_model self request =
  if bool_decide (MCPRequest.task_type request = TaskType.EMBEDDING)
  then (ModelType.EMBEDDING, [])
  else (_intelligent_selection request,
        [(INFO, "Router selected: " +:+
                ModelType.value (_intelligent_selection request) +:+
                " for task=" +:+ TaskType.value (MCPRequest.task_type request))]).
Proof. intros Hm. unfold select_model, specified_model. by rewrite Hm. Qed.

Lemma fallback_of_designated (m : ModelType.t) :
  m <> ModelType.EMBEDDING ->
  exists fallback,
    fallback_of m = Some fallback /\
    fallback <> m /\
    fallback <> ModelType.EMBEDDING /\
    fallback <> ModelType.GEMINI_PRO.
Proof. destruct m; try done; intros _; eexists; by split_and!. Qed.

(** X17: without an explicit model the selection does not read the
    health registry: every router selects the same backend and logs the
    same; so the selection stays the same after the selected backend
    was marked unhealthy, and [validate_routing_decision] then refuses
    the backend the router itself selected. *)
Theorem select_model_ignores_health (self : MCPRouter.t) (request : MCPRequest.t) :
  MCPRequest.model request = None ->
  (forall self' : MCPRouter.t,
     select_model self' request = select_model self request) /\
  (select_model
     (mark_model_unhealthy self (select_model self request).1).1 request).1 =
    (select_model self request).1 /\
  (validate_routing_decision
     (mark_model_unhealthy self (select_model self request).1).1
     request (select_model self request).1).1 =
    (false, Some ("Selected model " +:+
                  ModelType.value (select_model self request).1 +:+
                  " is unhealthy")).
Proof.
  intros Hm.
  assert (Hany : forall self', select_model self' request = select_model self request).
  { intros self'. by rewrite !select_model_no_model. }
  split_and!; [done|by rewrite Hany|].
  unfold validate_routing_decision.
  rewrite RouterProperties.is_model_healthy_mark_unhealthy.
  by rewrite decide_True.
Qed.

Lemma select_model_ignores_health_witness :
  (forall self' : MCPRouter.t,
     select_model self'
       (request_of "Write a poem" TaskType.CREATIVE None false true None) =
     select_model fresh_router
       (request_of "Write a poem" TaskType.CREATIVE None false true None)) /\
  (select_model
     (mark_model_unhealthy fresh_router
        (select_model fresh_router
           (request_of "Write a poem" TaskType.CREATIVE None false true None)).1).1
     (request_of "Write a poem" TaskType.CREATIVE None false true None)).1 =
    (select_model fresh_router
       (request_of "Write a poem" TaskType.CREATIVE None false true None)).1 /\
  (validate_routing_decision
     (mark_model_unhealthy fresh_router
        (select_model fresh_router
           (request_of "Write a poem" TaskType.CREATIVE None false true None)).1).1
     (request_of "Write a poem" TaskType.CREATIVE None false true None)
     (select_model fresh_router
        (request_of "Write a poem" TaskType.CREATIVE None false true None)).1).1 =
    (false, Some ("Selected model " +:+
                  ModelType.value
                    (select_model fresh_router
                       (request_of "Write a poem" TaskType.CREATIVE None
                          false true None)).1 +:+
                  " is unhealthy")).
Proof.
  apply (select_model_ignores_health fresh_router
           (request_of "Write a poem" TaskType.CREATIVE None false true None)).
  reflexivity.
Defined.

(** X18: for a request without an explicit model, a backend selected
    for a task other than an embedding always has a designated
    alternate, different from it, which [get_fallback_model] returns
    when it is healthy; the backend selected for an embedding task has
    none. *)
Theorem select_model_fallback (self : MCPRouter.t) (request : MCPRequest.t) :
  MCPRequest.model request = None ->
  (MCPRequest.task_type request <> TaskType.EMBEDDING ->
   exists fallback,
     fallback_of (select_model self request).1 = Some fallback /\
     fallback <> (select_model self request).1 /\
     (get_fallback_model self (select_model self request).1).1 =
     if is_model_healthy self fallback then Some fallback else None) /\
  (MCPRequest.task_type request = TaskType.EMBEDDING ->
   get_fallback_model self (select_model self request).1 = (None, [])).
Proof.
  intros Hm. rewrite select_model_no_model by done. split.
  - intros Htask. rewrite bool_decide_eq_false_2 by done. simpl.
    destruct (fallback_of_designated (_intelligent_selection request))
      as (fb & Hfb & Hne & _).
    { apply RouterProperties._intelligent_selection_not_embedding. }
    exists fb. split_and!; [done..|].
    unfold get_fallback_model. rewrite Hfb.
    by destruct (is_model_healthy self fb).
  - intros Htask. by rewrite bool_decide_eq_true_2.
Qed.

Lemma select_model_fallback_witness :
  (MCPRequest.task_type
     (request_of "Summarize this" TaskType.SUMMARIZATION None false false None)
   <> TaskType.EMBEDDING ->
   exists fallback,
     fallback_of
       (select_model fresh_router
          (request_of "Summarize this" TaskType.SUMMARIZATION None
             false false None)).1 = Some fallback /\
     fallback <>
       (select_model fresh_router
          (request_of "Summarize this" TaskType.SUMMARIZATION None
             false false None)).1 /\
     (get_fallback_model fresh_router
        (select_model fresh_router
           (request_of "Summarize this" TaskType.SUMMARIZATION None
              false false None)).1).1 =
     if is_model_healthy fresh_router fallback then Some fallback else None) /\
  (MCPRequest.task_type
     (request_of "Summarize this" TaskType.SUMMARIZATION None false false None)
   = TaskType.EMBEDDING ->
   get_fallback_model fresh_router
     (select_model fresh_router
        (request_of "Summarize this" TaskType.SUMMARIZATION None
           false false None)).1 = (None, [])).
Proof.
  apply (select_model_fallback fresh_router
           (request_of "Summarize this" TaskType.SUMMARIZATION None
              false false None)).
  reflexivity.
Defined.

(** X19: what [get_fallback_model] returns is healthy, is not the
    failed backend itself, and is neither the embedding backend nor
    [GEMINI_PRO]; and it returns nothing for the embedding backend. *)
Theorem get_fallback_model_never (self : MCPRouter.t)
    (primary_model fallback : ModelType.t) :
  (get_fallback_model self primary_model).1 = Some fallback ->
  is_model_healthy self fallback = true /\
  fallback <> primary_model /\
  fallback <> ModelType.EMBEDDING /\
  fallback <> ModelType.GEMINI_PRO /\
  primary_model <> ModelType.EMBEDDING.
Proof.
  intros [Hfb Hh]%RouterProperties.get_fallback_model_Some.
  assert (Hne : primary_model <> ModelType.EMBEDDING).
  { intros ->. discriminate Hfb. }
  destruct (fallback_of_designated primary_model Hne) as (fb & Hfb' & ? & ? & ?).
  assert (fb = fallback) as -> by congruence.
  by split_and!.
Qed.

Lemma get_fallback_model_never_witness :
  is_model_healthy (router_without ModelType.GEMINI_PRO) ModelType.GPT4 = true /\
  ModelType.GPT4 <> ModelType.GEMINI_PRO /\
  ModelType.GPT4 <> ModelType.EMBEDDING /\
  ModelType.GPT4 <> ModelType.GEMINI_PRO /\
  ModelType.GEMINI_PRO <> ModelType.EMBEDDING.
Proof.
  apply (get_fallback_model_never (router_without ModelType.GEMINI_PRO)
           ModelType.GEMINI_PRO ModelType.GPT4).
  reflexivity.
Defined.

(** X20: the alternates are paired, [GEMINI_PRO] apart: the alternate
    of the alternate of a backend is the backend itself. So once a
    backend other than [GEMINI_PRO] is unhealthy, asking for the
    fallback of its alternate gives nothing: a caller finds no second
    fallback that way. *)
Theorem get_fallback_model_second_hop (self : MCPRouter.t)
    (primary_model fallback : ModelType.t) :
  fallback_of primary_model = Some fallback ->
  primary_model <> ModelType.GEMINI_PRO ->
  fallback_of fallback = Some primary_model /\
  (is_model_healthy self primary_model = false ->
   get_fallback_model self fallback =
   (None, [(ERROR, "Fallback " +:+ ModelType.value primary_model +:+
                   " also unhealthy")])).
Proof.
  intros Hfb Hne.
  assert (Hback : fallback_of fallback = Some primary_model).
  { destruct primary_model; try done; by injection Hfb as <-. }
  split; [done|]. intros Hh.
  unfold get_fallback_model. by rewrite Hback, Hh.
Qed.

Lemma get_fallback_model_second_hop_witness :
  fallback_of ModelType.CLAUDE_3_OPUS = Some ModelType.GPT4 /\
  (is_model_healthy (router_without ModelType.GPT4) ModelType.GPT4 = false ->
   get_fallback_model (router_without ModelType.GPT4) ModelType.CLAUDE_3_OPUS =
   (None, [(ERROR, "Fallback " +:+ ModelType.value ModelType.GPT4 +:+
                   " also unhealthy")])).
Proof.
  apply (get_fallback_model_second_hop (router_without ModelType.GPT4)
           ModelType.GPT4 ModelType.CLAUDE_3_OPUS).
  - reflexivity.
  - discriminate.
Defined.

(** With [GEMINI_PRO] the chain has two hops: its alternate [GPT4] has
    the alternate [CLAUDE_3_OPUS]. *)
Example get_fallback_model_gemini_chain :
  fallback_of ModelType.GEMINI_PRO = Some ModelType.GPT4 /\
  (get_fallback_model (router_without ModelType.GEMINI_PRO) ModelType.GPT4).1
  = Some ModelType.CLAUDE_3_OPUS.
Proof. split; reflexivity. Qed.

(** Decides [x ∈ [a; b; ...]] for listed constructors, either way. *)
Ltac in_list_or_not :=
  split;
  [ first [ intros _; discriminate
          | let H := fresh in intros H; exfalso; not_in_list H ]
  | first [ intros _;
            solve [ repeat (first [ by apply list_elem_of_here
                                  | apply list_elem_of_further ]) ]
          | let H := fresh in intros H; by destruct H ] ].

(** X21: with neither flag set and no explicit model, the selected
    backend lists the task of the request among its tasks for every
    task type but one: a summarization is routed to [GEMINI_PRO], whose
    tasks do not include it. *)
Theorem select_model_task_fit (self : MCPRouter.t) (request : MCPRequest.t) :
  MCPRequest.model request = None ->
  MCPRequest.require_creativity request = false ->
  MCPRequest.require_reasoning request = false ->
  exists caps,
    MODEL_CAPABILITIES !! (select_model self request).1 = Some caps /\
    (MCPRequest.task_type request ∈ tasks caps <->
     MCPRequest.task_type request <> TaskType.SUMMARIZATION).
Proof.
  intros Hm Hc Hr. rewrite select_model_no_model by done.
  unfold _intelligent_selection. rewrite Hc, Hr.
  destruct (MCPRequest.task_type request) eqn:Htask; simpl;
    try destruct (_ >? 2000);
    (eexists; split; [reflexivity|]); simpl; in_list_or_not.
Qed.

Lemma select_model_task_fit_witness :
  exists caps,
    MODEL_CAPABILITIES !!
      (select_model fresh_router
         (request_of "Summarize this" TaskType.SUMMARIZATION None
            false false None)).1 = Some caps /\
    (MCPRequest.task_type
       (request_of "Summarize this" TaskType.SUMMARIZATION None false false None)
     ∈ tasks caps <->
     MCPRequest.task_type
       (request_of "Summarize this" TaskType.SUMMARIZATION None false false None)
     <> TaskType.SUMMARIZATION).
Proof.
  apply (select_model_task_fit fresh_router
           (request_of "Summarize this" TaskType.SUMMARIZATION None
              false false None)); reflexivity.
Defined.

(** X22: on a reachable router [validate_routing_decision] accepts a
    backend exactly when it is healthy and [max_tokens], if given, is
    at most its context window; so [0] and negative values pass. The
    backend is never unknown there: every member of [ModelType] is in
    the class matrix. *)
Theorem validate_routing_decision_reachable (self : MCPRouter.t)
    (request : MCPRequest.t) (selected_model : ModelType.t) :
  reachable self ->
  ((validate_routing_decision self request selected_model).1 = (true, None) <->
   is_model_healthy self selected_model = true /\
   forall n caps,
     MCPRequest.max_tokens request = Some n ->
     MODEL_CAPABILITIES !! selected_model = Some caps ->
     n <= context_window caps) /\
  ((validate_routing_decision self request selected_model).1.1 = false ->
   is_model_healthy self selected_model = false \/
   exists n caps,
     MCPRequest.max_tokens request = Some n /\
     MODEL_CAPABILITIES !! selected_model = Some caps /\
     n > context_window caps).
Proof.
  intros (Htable & _ & _)%RegistryProperties.reachable_inv.
  destruct (RouterProperties.MODEL_CAPABILITIES_total selected_model)
    as [caps Hcaps].
  assert (Hpos := RouterProperties.MODEL_CAPABILITIES_context_window_pos
                    selected_model caps Hcaps).
  unfold validate_routing_decision. rewrite Htable, Hcaps.
  destruct (is_model_healthy self selected_model); simpl;
    [|split; [split; [discriminate | by intros [? _]] | by left]].
  destruct (MCPRequest.max_tokens request) as [n|]; simpl;
    [|split; [split; [by split | done] | discriminate]].
  destruct (Z.eqb_spec n 0) as [->|Hn0]; simpl.
  - split; [|discriminate]. split; [|done].
    intros _. split; [done|]. intros ? caps' [= <-] [= <-]. lia.
  - destruct (Z.gtb_spec n (context_window caps)) as [Hgt|Hle]; simpl.
    + split.
      * split; [discriminate|].
        intros [_ Hfit]. specialize (Hfit n caps eq_refl eq_refl). lia.
      * intros _. right. exists n, caps. split_and!; [done..|lia].
    + split; [|discriminate]. split; [|done].
      intros _. split; [done|]. intros ? caps' [= <-] [= <-]. lia.
Qed.

Lemma validate_routing_decision_reachable_witness :
  ((validate_routing_decision (router_without ModelType.GPT4)
      (request_of "hello" TaskType.GENERAL None false false (Some (-5)))
      ModelType.GPT35_TURBO).1 = (true, None) <->
   is_model_healthy (router_without ModelType.GPT4) ModelType.GPT35_TURBO = true /\
   forall n caps,
     MCPRequest.max_tokens
       (request_of "hello" TaskType.GENERAL None false false (Some (-5))) = Some n ->
     MODEL_CAPABILITIES !! ModelType.GPT35_TURBO = Some caps ->
     n <= context_window caps) /\
  ((validate_routing_decision (router_without ModelType.GPT4)
      (request_of "hello" TaskType.GENERAL None false false (Some (-5)))
      ModelType.GPT35_TURBO).1.1 = false ->
   is_model_healthy (router_without ModelType.GPT4) ModelType.GPT35_TURBO = false \/
   exists n caps,
     MCPRequest.max_tokens
       (request_of "hello" TaskType.GENERAL None false false (Some (-5))) = Some n /\
     MODEL_CAPABILITIES !! ModelType.GPT35_TURBO = Some caps /\
     n > context_window caps).
Proof.
  apply (validate_routing_decision_reachable (router_without ModelType.GPT4)
           (request_of "hello" TaskType.GENERAL None false false (Some (-5)))
           ModelType.GPT35_TURBO).
  apply reachable_mark_unhealthy, reachable_init.
Defined.

End RoutingProperties.
